(** * AccountableAnonFhe: a shallow embedding of the batch-decryption contract

    The contract is the Solidity source [AccountableAnonFhe].  Each external
    function becomes a transaction in a state-and-revert monad over the
    contract storage; a revert discards every write of the transaction, as the
    EVM does.  Storage mappings are finite maps read with the Solidity default
    (zero / false) at absent keys.  Arithmetic is the checked arithmetic of
    Solidity 0.8: an overflow reverts with [Panic]. *)

From Stdlib Require Import ZArith List Bool Lia.
From Stdlib Require Import Init.Byte.
From stdpp Require Import gmap list fin_maps.

Local Open Scope Z_scope.

(** ** Machine types *)

Abbreviation address := Z (only parsing).
Abbreviation uint256 := Z (only parsing).
Abbreviation bytes32 := Z (only parsing).
Abbreviation bytes := (list Byte.byte) (only parsing).

Definition UINT256_MAX : Z := 2 ^ 256 - 1.
Definition UINT32_MAX : Z := 2 ^ 32 - 1.

(** ** Errors and events *)

Inductive Error : Type :=
| NotOwner
| NotProvider
| Paused
| CooldownActive
| BatchClosedOrInvalid
| InvalidCooldown
| ReplayDetected
| StateMismatch
| InvalidProof
| Panic       (* checked arithmetic overflowed *)
| AbiRevert.  (* abi.decode rejected its input *)

Inductive Event : Type :=
| OwnershipTransferred (previousOwner newOwner : address)
| ProviderAdded (provider : address)
| ProviderRemoved (provider : address)
| ContractPaused (account : address)
| ContractUnpaused (account : address)
| CooldownSecondsSet (oldCooldown newCooldown : uint256)
| BatchOpened (batchId : uint256)
| BatchClosed (batchId : uint256)
| Submission (batchId submissionIndex : uint256) (provider : address)
| DecryptionRequested (requestId batchId : uint256)
| DecryptionCompleted (requestId batchId : uint256)
    (reputationUpdates : list Z) (isMaliciousFlags : list bool).

(** ** Storage *)

Record DecryptionContext : Type := mkContext {
  batchId : uint256;
  stateHash : bytes32;
  processed : bool
}.

(** The value a mapping returns for a key that was never written. *)
Definition emptyContext : DecryptionContext :=
  {| batchId := 0; stateHash := 0; processed := false |}.

Record State : Type := mkState {
  owner : address;
  isProvider : gmap Z bool;
  paused : bool;
  cooldownSeconds : uint256;
  lastSubmissionTime : gmap Z Z;
  lastDecryptionRequestTime : gmap Z Z;
  currentBatchId : uint256;
  isBatchOpen : gmap Z bool;
  submissionsInBatch : gmap Z Z;
  encryptedReputationUpdates : gmap (Z * Z) Z;
  encryptedIsMalicious : gmap (Z * Z) Z;
  submissionsCount : gmap Z Z;
  decryptionContexts : gmap Z DecryptionContext;
  events : list Event
}.

(** Mapping reads with the Solidity defaults. *)
Definition getZ {K} `{Countable K} (m : gmap K Z) (k : K) : Z := default 0 (m !! k).
Definition getB {K} `{Countable K} (m : gmap K bool) (k : K) : bool := default false (m !! k).
Definition getCtx (m : gmap Z DecryptionContext) (k : Z) : DecryptionContext :=
  default emptyContext (m !! k).

(** Field writes. *)
Definition set_owner (v : address) (s : State) : State :=
  mkState v (isProvider s) (paused s) (cooldownSeconds s) (lastSubmissionTime s)
    (lastDecryptionRequestTime s) (currentBatchId s) (isBatchOpen s) (submissionsInBatch s)
    (encryptedReputationUpdates s) (encryptedIsMalicious s) (submissionsCount s)
    (decryptionContexts s) (events s).
Definition set_isProvider (v : gmap Z bool) (s : State) : State :=
  mkState (owner s) v (paused s) (cooldownSeconds s) (lastSubmissionTime s)
    (lastDecryptionRequestTime s) (currentBatchId s) (isBatchOpen s) (submissionsInBatch s)
    (encryptedReputationUpdates s) (encryptedIsMalicious s) (submissionsCount s)
    (decryptionContexts s) (events s).
Definition set_paused (v : bool) (s : State) : State :=
  mkState (owner s) (isProvider s) v (cooldownSeconds s) (lastSubmissionTime s)
    (lastDecryptionRequestTime s) (currentBatchId s) (isBatchOpen s) (submissionsInBatch s)
    (encryptedReputationUpdates s) (encryptedIsMalicious s) (submissionsCount s)
    (decryptionContexts s) (events s).
Definition set_cooldownSeconds (v : uint256) (s : State) : State :=
  mkState (owner s) (isProvider s) (paused s) v (lastSubmissionTime s)
    (lastDecryptionRequestTime s) (currentBatchId s) (isBatchOpen s) (submissionsInBatch s)
    (encryptedReputationUpdates s) (encryptedIsMalicious s) (submissionsCount s)
    (decryptionContexts s) (events s).
Definition set_lastSubmissionTime (v : gmap Z Z) (s : State) : State :=
  mkState (owner s) (isProvider s) (paused s) (cooldownSeconds s) v
    (lastDecryptionRequestTime s) (currentBatchId s) (isBatchOpen s) (submissionsInBatch s)
    (encryptedReputationUpdates s) (encryptedIsMalicious s) (submissionsCount s)
    (decryptionContexts s) (events s).
Definition set_lastDecryptionRequestTime (v : gmap Z Z) (s : State) : State :=
  mkState (owner s) (isProvider s) (paused s) (cooldownSeconds s) (lastSubmissionTime s)
    v (currentBatchId s) (isBatchOpen s) (submissionsInBatch s)
    (encryptedReputationUpdates s) (encryptedIsMalicious s) (submissionsCount s)
    (decryptionContexts s) (events s).
Definition set_currentBatchId (v : uint256) (s : State) : State :=
  mkState (owner s) (isProvider s) (paused s) (cooldownSeconds s) (lastSubmissionTime s)
    (lastDecryptionRequestTime s) v (isBatchOpen s) (submissionsInBatch s)
    (encryptedReputationUpdates s) (encryptedIsMalicious s) (submissionsCount s)
    (decryptionContexts s) (events s).
Definition set_isBatchOpen (v : gmap Z bool) (s : State) : State :=
  mkState (owner s) (isProvider s) (paused s) (cooldownSeconds s) (lastSubmissionTime s)
    (lastDecryptionRequestTime s) (currentBatchId s) v (submissionsInBatch s)
    (encryptedReputationUpdates s) (encryptedIsMalicious s) (submissionsCount s)
    (decryptionContexts s) (events s).
Definition set_submissionsInBatch (v : gmap Z Z) (s : State) : State :=
  mkState (owner s) (isProvider s) (paused s) (cooldownSeconds s) (lastSubmissionTime s)
    (lastDecryptionRequestTime s) (currentBatchId s) (isBatchOpen s) v
    (encryptedReputationUpdates s) (encryptedIsMalicious s) (submissionsCount s)
    (decryptionContexts s) (events s).
Definition set_encryptedReputationUpdates (v : gmap (Z * Z) Z) (s : State) : State :=
  mkState (owner s) (isProvider s) (paused s) (cooldownSeconds s) (lastSubmissionTime s)
    (lastDecryptionRequestTime s) (currentBatchId s) (isBatchOpen s) (submissionsInBatch s)
    v (encryptedIsMalicious s) (submissionsCount s)
    (decryptionContexts s) (events s).
Definition set_encryptedIsMalicious (v : gmap (Z * Z) Z) (s : State) : State :=
  mkState (owner s) (isProvider s) (paused s) (cooldownSeconds s) (lastSubmissionTime s)
    (lastDecryptionRequestTime s) (currentBatchId s) (isBatchOpen s) (submissionsInBatch s)
    (encryptedReputationUpdates s) v (submissionsCount s)
    (decryptionContexts s) (events s).
Definition set_submissionsCount (v : gmap Z Z) (s : State) : State :=
  mkState (owner s) (isProvider s) (paused s) (cooldownSeconds s) (lastSubmissionTime s)
    (lastDecryptionRequestTime s) (currentBatchId s) (isBatchOpen s) (submissionsInBatch s)
    (encryptedReputationUpdates s) (encryptedIsMalicious s) v
    (decryptionContexts s) (events s).
Definition set_decryptionContexts (v : gmap Z DecryptionContext) (s : State) : State :=
  mkState (owner s) (isProvider s) (paused s) (cooldownSeconds s) (lastSubmissionTime s)
    (lastDecryptionRequestTime s) (currentBatchId s) (isBatchOpen s) (submissionsInBatch s)
    (encryptedReputationUpdates s) (encryptedIsMalicious s) (submissionsCount s)
    v (events s).
Definition set_events (v : list Event) (s : State) : State :=
  mkState (owner s) (isProvider s) (paused s) (cooldownSeconds s) (lastSubmissionTime s)
    (lastDecryptionRequestTime s) (currentBatchId s) (isBatchOpen s) (submissionsInBatch s)
    (encryptedReputationUpdates s) (encryptedIsMalicious s) (submissionsCount s)
    (decryptionContexts s) v.

(** ** The transaction monad: storage threading with revert *)

Inductive Result (A : Type) : Type :=
| Ok (a : A)
| Revert (e : Error).
Arguments Ok {A} a.
Arguments Revert {A} e.

Definition Tx (A : Type) : Type := State -> Result (A * State).

Definition ret {A} (a : A) : Tx A := fun s => Ok (a, s).
Definition bind {A B} (m : Tx A) (f : A -> Tx B) : Tx B :=
  fun s => match m s with
           | Ok (a, s') => f a s'
           | Revert e => Revert e
           end.
Definition revert {A} (e : Error) : Tx A := fun _ => Revert e.
Definition gets {A} (f : State -> A) : Tx A := fun s => Ok (f s, s).
Definition modify (f : State -> State) : Tx unit := fun s => Ok (tt, f s).
Definition emit (ev : Event) : Tx unit :=
  modify (fun s => set_events (events s ++ [ev]) s).

Notation "'let!' x ':=' m 'in' k" := (bind m (fun x => k))
  (at level 10, x name, m at level 100, k at level 200).
Notation "'do!' m 'in' k" := (bind m (fun _ => k))
  (at level 10, m at level 100, k at level 200).

(** Checked arithmetic of Solidity 0.8. *)
Definition checked_add (a b : Z) : Tx Z :=
  if a + b <=? UINT256_MAX then ret (a + b) else revert Panic.
Definition checked_mul (a b : Z) : Tx Z :=
  if a * b <=? UINT256_MAX then ret (a * b) else revert Panic.

(** What a call sees of its environment. *)
Record Env : Type := mkEnv {
  msg_sender : address;
  block_timestamp : uint256
}.

(** ** ABI decoding of the cleartext buffer

    [abi.decode(data, (T))] for a static type reads the first 32-byte word of
    [data], most significant byte first, and reverts when fewer than 32 bytes
    are there or when the word is not a value of [T]. *)

Definition be_word (bs : bytes) : Z :=
  fold_left (fun acc b => acc * 256 + Z.of_N (Byte.to_N b)) bs 0.

Definition abi_word (data : bytes) : Tx Z :=
  if (32 <=? length data)%nat then ret (be_word (take 32 data)) else revert AbiRevert.

Definition abi_decode_uint32 (data : bytes) : Tx Z :=
  let! w := abi_word data in
  if w <=? UINT32_MAX then ret w else revert AbiRevert.

Definition abi_decode_bool (data : bytes) : Tx bool :=
  let! w := abi_word data in
  if w =? 0 then ret false else if w =? 1 then ret true else revert AbiRevert.

(** [data[offset:]]: reverts when the start lies beyond the end. *)
Definition slice_from (data : bytes) (offset : Z) : Tx bytes :=
  if offset <=? Z.of_nat (length data) then ret (drop (Z.to_nat offset) data)
  else revert AbiRevert.

(** ** The contract *)

Inductive Call : Type :=
| TransferOwnership (newOwner : address)
| AddProvider (provider : address)
| RemoveProvider (provider : address)
| Pause
| Unpause
| SetCooldownSeconds (newCooldownSeconds : uint256)
| OpenBatch
| CloseBatch
| SubmitReputationUpdate (_batchId : uint256)
    (encryptedReputationDelta encryptedMaliciousFlag : bytes32)
| RequestBatchDecryption (_batchId : uint256) (oracleRequestId : uint256)
| MyCallback (requestId : uint256) (cleartexts proof : bytes).

Definition empty_storage : State :=
  mkState 0 ∅ false 0 ∅ ∅ 0 ∅ ∅ ∅ ∅ ∅ ∅ [].

Section Contract.

(** [address(this)], the digest [keccak256(abi.encode(cts, address(this)))]
    and the oracle's [FHE.checkSignatures] (true when it returns normally)
    belong to the platform, and the contract is parametric in them.  The
    request id that [FHE.requestDecryption] returns is chosen by the oracle
    and is carried by the call [RequestBatchDecryption]. *)
Variable this : address.
Variable keccak256_encode : list bytes32 -> address -> bytes32.
Variable checkSignatures : uint256 -> bytes -> bytes -> bool.

(** *** Modifiers *)

Definition onlyOwner (env : Env) : Tx unit :=
  let! o := gets owner in
  if negb (msg_sender env =? o) then revert NotOwner else ret tt.

Definition onlyProvider (env : Env) : Tx unit :=
  let! p := gets (fun s => getB (isProvider s) (msg_sender env)) in
  if negb p then revert NotProvider else ret tt.

Definition whenNotPaused : Tx unit :=
  let! p := gets paused in
  if p then revert Paused else ret tt.

Definition respectCooldown (env : Env) : Tx unit :=
  let! last := gets (fun s => getZ (lastSubmissionTime s) (msg_sender env)) in
  let! cd := gets cooldownSeconds in
  let! deadline := checked_add last cd in
  if block_timestamp env <? deadline then revert CooldownActive else ret tt.

(** *** Construction *)

Definition constructor (env : Env) : Tx unit :=
  do! modify (set_owner (msg_sender env)) in
  do! emit (OwnershipTransferred 0 (msg_sender env)) in
  let! o := gets owner in
  do! modify (fun s => set_isProvider (<[o := true]> (isProvider s)) s) in
  do! emit (ProviderAdded o) in
  modify (set_cooldownSeconds 60).

(** *** Access control *)

Definition transferOwnership (env : Env) (newOwner : address) : Tx unit :=
  do! onlyOwner env in
  let! previousOwner := gets owner in
  do! modify (set_owner newOwner) in
  emit (OwnershipTransferred previousOwner newOwner).

Definition addProvider (env : Env) (provider : address) : Tx unit :=
  do! onlyOwner env in
  let! p := gets (fun s => getB (isProvider s) provider) in
  if negb p then
    do! modify (fun s => set_isProvider (<[provider := true]> (isProvider s)) s) in
    emit (ProviderAdded provider)
  else ret tt.

Definition removeProvider (env : Env) (provider : address) : Tx unit :=
  do! onlyOwner env in
  let! p := gets (fun s => getB (isProvider s) provider) in
  if p then
    do! modify (fun s => set_isProvider (<[provider := false]> (isProvider s)) s) in
    emit (ProviderRemoved provider)
  else ret tt.

Definition pause (env : Env) : Tx unit :=
  do! onlyOwner env in
  do! whenNotPaused in
  do! modify (set_paused true) in
  emit (ContractPaused (msg_sender env)).

Definition unpause (env : Env) : Tx unit :=
  do! onlyOwner env in
  let! p := gets paused in
  if negb p then revert Paused (* Already unpaused *) else
  do! modify (set_paused false) in
  emit (ContractUnpaused (msg_sender env)).

Definition setCooldownSeconds (env : Env) (newCooldownSeconds : uint256) : Tx unit :=
  do! onlyOwner env in
  if newCooldownSeconds =? 0 then revert InvalidCooldown else
  let! oldCooldown := gets cooldownSeconds in
  do! modify (set_cooldownSeconds newCooldownSeconds) in
  emit (CooldownSecondsSet oldCooldown newCooldownSeconds).

(** *** Batches *)

Definition openBatch (env : Env) : Tx unit :=
  do! onlyOwner env in
  do! whenNotPaused in
  let! cur := gets currentBatchId in
  let! next := checked_add cur 1 in
  do! modify (set_currentBatchId next) in
  do! modify (fun s => set_isBatchOpen (<[currentBatchId s := true]> (isBatchOpen s)) s) in
  do! modify (fun s =>
        set_submissionsInBatch (<[currentBatchId s := 0]> (submissionsInBatch s)) s) in
  let! id := gets currentBatchId in
  emit (BatchOpened id).

Definition closeBatch (env : Env) : Tx unit :=
  do! onlyOwner env in
  do! whenNotPaused in
  let! open := gets (fun s => getB (isBatchOpen s) (currentBatchId s)) in
  if negb open then revert BatchClosedOrInvalid else
  do! modify (fun s => set_isBatchOpen (<[currentBatchId s := false]> (isBatchOpen s)) s) in
  let! id := gets currentBatchId in
  emit (BatchClosed id).

Definition _isValidBatch (_batchId : uint256) : Tx bool :=
  gets (fun s => (0 <? _batchId) && (_batchId <=? currentBatchId s)
                 && getB (isBatchOpen s) _batchId).

(** The source assigns the fresh trivial ciphertext to its own parameter,
    so the caller's handle is stored as it came. *)
Definition _initIfNeeded (val : bytes32) : Tx unit := ret tt.

(** *** Submissions *)

Definition submitReputationUpdate (env : Env) (_batchId : uint256)
    (encryptedReputationDelta encryptedMaliciousFlag : bytes32) : Tx unit :=
  do! onlyProvider env in
  do! whenNotPaused in
  do! respectCooldown env in
  let! valid := _isValidBatch _batchId in
  if negb valid then revert BatchClosedOrInvalid else
  do! _initIfNeeded encryptedReputationDelta in
  do! _initIfNeeded encryptedMaliciousFlag in
  let! submissionIndex := gets (fun s => getZ (submissionsInBatch s) _batchId) in
  do! modify (fun s => set_encryptedReputationUpdates
        (<[(_batchId, submissionIndex) := encryptedReputationDelta]>
           (encryptedReputationUpdates s)) s) in
  do! modify (fun s => set_encryptedIsMalicious
        (<[(_batchId, submissionIndex) := encryptedMaliciousFlag]>
           (encryptedIsMalicious s)) s) in
  let! inBatch := gets (fun s => getZ (submissionsInBatch s) _batchId) in
  let! inBatch' := checked_add inBatch 1 in
  do! modify (fun s => set_submissionsInBatch (<[_batchId := inBatch']> (submissionsInBatch s)) s) in
  let! count := gets (fun s => getZ (submissionsCount s) _batchId) in
  let! count' := checked_add count 1 in
  do! modify (fun s => set_submissionsCount (<[_batchId := count']> (submissionsCount s)) s) in
  do! modify (fun s => set_lastSubmissionTime
        (<[msg_sender env := block_timestamp env]> (lastSubmissionTime s)) s) in
  emit (Submission _batchId submissionIndex (msg_sender env)).

(** *** Commitment over the batch's ciphertext handles *)

Definition _hashCiphertexts (cts : list bytes32) : bytes32 :=
  keccak256_encode cts this.

(** The loop of [requestBatchDecryption] and of [myCallback] that fills
    [cts]: iteration [i] writes the delta handle at [i] and the flag handle
    at [i + numSubmissions]. *)
Fixpoint collect_cts (s : State) (_batchId numSubmissions : uint256)
    (iters : nat) (i : Z) (cts : list bytes32) : list bytes32 :=
  match iters with
  | O => cts
  | S iters' =>
      let cts1 :=
        <[Z.to_nat i := getZ (encryptedReputationUpdates s) (_batchId, i)]> cts in
      let cts2 :=
        <[Z.to_nat (i + numSubmissions) := getZ (encryptedIsMalicious s) (_batchId, i)]>
          cts1 in
      collect_cts s _batchId numSubmissions iters' (i + 1) cts2
  end.

(** [new bytes32[](2 * numSubmissions)] followed by that loop. *)
Definition batch_cts (_batchId numSubmissions : uint256) : Tx (list bytes32) :=
  let! len := checked_mul 2 numSubmissions in
  gets (fun s => collect_cts s _batchId numSubmissions (Z.to_nat numSubmissions) 0
                   (replicate (Z.to_nat len) 0)).

(** *** Decryption request *)

Definition requestBatchDecryption (env : Env) (_batchId : uint256)
    (oracleRequestId : uint256) : Tx unit :=
  do! onlyOwner env in
  do! whenNotPaused in
  do! respectCooldown env in
  let! count := gets (fun s => getZ (submissionsCount s) _batchId) in
  if count =? 0 then revert BatchClosedOrInvalid else
  let! numSubmissions := gets (fun s => getZ (submissionsCount s) _batchId) in
  let! cts := batch_cts _batchId numSubmissions in
  let stateHash := _hashCiphertexts cts in
  let requestId := oracleRequestId in
  do! modify (fun s => set_decryptionContexts
        (<[requestId := mkContext _batchId stateHash false]> (decryptionContexts s)) s) in
  do! modify (fun s => set_lastDecryptionRequestTime
        (<[msg_sender env := block_timestamp env]> (lastDecryptionRequestTime s)) s) in
  emit (DecryptionRequested requestId _batchId).

(** *** Decryption callback *)

(** The decode loop of [myCallback]; [offset] is the running offset. *)
Fixpoint decode_loop (cleartexts : bytes) (iters : nat) (i offset : Z)
    (reputationUpdates : list Z) (isMaliciousFlags : list bool)
    : Tx (list Z * list bool) :=
  match iters with
  | O => ret (reputationUpdates, isMaliciousFlags)
  | S iters' =>
      let! delta := abi_decode_uint32 cleartexts in
      let reputationUpdates := <[Z.to_nat i := delta]> reputationUpdates in
      let! offset := checked_add offset 4 in
      let! rest := slice_from cleartexts offset in
      let! flag := abi_decode_bool rest in
      let isMaliciousFlags := <[Z.to_nat i := flag]> isMaliciousFlags in
      let! offset := checked_add offset 1 in
      decode_loop cleartexts iters' (i + 1) offset reputationUpdates isMaliciousFlags
  end.

Definition myCallback (requestId : uint256) (cleartexts proof : bytes) : Tx unit :=
  let! ctx := gets (fun s => getCtx (decryptionContexts s) requestId) in
  if processed ctx then revert ReplayDetected else
  let! _batchId := gets (fun s => batchId (getCtx (decryptionContexts s) requestId)) in
  let! numSubmissions := gets (fun s => getZ (submissionsCount s) _batchId) in
  let! currentCts := batch_cts _batchId numSubmissions in
  let currentStateHash := _hashCiphertexts currentCts in
  let! frozen := gets (fun s => stateHash (getCtx (decryptionContexts s) requestId)) in
  if negb (currentStateHash =? frozen) then revert StateMismatch else
  if checkSignatures requestId cleartexts proof then
    let! decoded := decode_loop cleartexts (Z.to_nat numSubmissions) 0 0
                      (replicate (Z.to_nat numSubmissions) 0)
                      (replicate (Z.to_nat numSubmissions) false) in
    do! modify (fun s =>
          let c := getCtx (decryptionContexts s) requestId in
          set_decryptionContexts
            (<[requestId := mkContext (batchId c) (stateHash c) true]>
               (decryptionContexts s)) s) in
    emit (DecryptionCompleted requestId _batchId (fst decoded) (snd decoded))
  else revert InvalidProof.

(** ** Transactions and traces *)

Definition exec (env : Env) (c : Call) : Tx unit :=
  match c with
  | TransferOwnership newOwner => transferOwnership env newOwner
  | AddProvider provider => addProvider env provider
  | RemoveProvider provider => removeProvider env provider
  | Pause => pause env
  | Unpause => unpause env
  | SetCooldownSeconds n => setCooldownSeconds env n
  | OpenBatch => openBatch env
  | CloseBatch => closeBatch env
  | SubmitReputationUpdate b ctA ctB => submitReputationUpdate env b ctA ctB
  | RequestBatchDecryption b rid => requestBatchDecryption env b rid
  | MyCallback rid cleartexts proof => myCallback rid cleartexts proof
  end.

(** The storage after a transaction: a revert leaves it as it was. *)
Definition commit (tx : Tx unit) (s : State) : State :=
  match tx s with
  | Ok (_, s') => s'
  | Revert _ => s
  end.

Definition transact (tx : Env * Call) (s : State) : State :=
  commit (exec (fst tx) (snd tx)) s.

Definition run (txs : list (Env * Call)) (s : State) : State :=
  fold_left (fun st tx => transact tx st) txs s.

Definition deploy (env : Env) : State := commit (constructor env) empty_storage.

Definition reachable (s : State) : Prop :=
  exists env txs, s = run txs (deploy env).

End Contract.

(** ** Trace predicates *)

(** The oracle hands out request id [k] in this call. *)
Definition issues (k : uint256) (c : Call) : bool :=
  match c with
  | RequestBatchDecryption _ r => r =? k
  | _ => false
  end.

(** This call is a callback for request id [k]. *)
Definition answers (k : uint256) (c : Call) : bool :=
  match c with
  | MyCallback r _ _ => r =? k
  | _ => false
  end.

(** The handle array both [requestBatchDecryption] and [myCallback] hash for
    batch [b] in storage [s]. *)
Definition current_cts (s : State) (b : uint256) : list bytes32 :=
  let numSubmissions := getZ (submissionsCount s) b in
  collect_cts s b numSubmissions (Z.to_nat numSubmissions) 0
    (replicate (Z.to_nat (2 * numSubmissions)) 0).

(** ** A sample deployment

    A concrete platform and a few concrete storages, to run the contract on. *)

Definition sample_this : address := 7.

Definition sample_keccak (cts : list bytes32) (a : address) : bytes32 :=
  fold_left (fun acc c => acc * 257 + c + 1) cts (a + 1).

Definition sample_checkSignatures (requestId : uint256) (cleartexts proof : bytes) : bool :=
  match proof with
  | [] => false
  | _ :: _ => true
  end.

Definition sample_run : list (Env * Call) -> State -> State :=
  run sample_this sample_keccak sample_checkSignatures.

Definition sample_callback : uint256 -> bytes -> bytes -> Tx unit :=
  myCallback sample_this sample_keccak sample_checkSignatures.

Definition sample_request : Env -> uint256 -> uint256 -> Tx unit :=
  requestBatchDecryption sample_this sample_keccak.

(** Actor 1 deploys at time 1000. *)
Definition fresh : State := deploy (mkEnv 1 1000).

(** Batch 1 is open and holds one submission, made by the owner at time 1000. *)
Definition one_submission : State :=
  sample_run [ (mkEnv 1 1000, OpenBatch);
               (mkEnv 1 1000, SubmitReputationUpdate 1 11 12) ] fresh.

(** Decryption of batch 1 is pending under request id 5. *)
Definition one_pending : State :=
  sample_run [ (mkEnv 1 1060, RequestBatchDecryption 1 5) ] one_submission.

(** Batch 1 holds two submissions and its decryption is pending under id 5. *)
Definition two_pending : State :=
  sample_run [ (mkEnv 1 1060, SubmitReputationUpdate 1 13 14);
               (mkEnv 1 1120, RequestBatchDecryption 1 5) ] one_submission.

Definition zeros (n : nat) : bytes := repeat Byte.x00 n.

Definition sample_proof : bytes := [Byte.x01].

(** Batches 1 and 2 are both open; batch 2 holds one submission. *)
Definition two_open_batches : State :=
  sample_run [ (mkEnv 1 1000, OpenBatch); (mkEnv 1 1000, OpenBatch);
               (mkEnv 1 1000, SubmitReputationUpdate 2 31 32) ] fresh.

(** The pending request of [one_pending] is answered with a 36-byte buffer. *)
Definition one_processed : State :=
  commit (sample_callback 5 (zeros 36) sample_proof) one_pending.

(** Batch 1 is open and empty. *)
Definition one_open_batch : State :=
  sample_run [ (mkEnv 1 1000, OpenBatch) ] fresh.

(** Batch 1 holds one submission and has been closed. *)
Definition one_closed : State :=
  sample_run [ (mkEnv 1 1000, CloseBatch) ] one_submission.

(** The fresh deployment, paused by its owner. *)
Definition paused_fresh : State := commit (pause (mkEnv 1 1000)) fresh.

(** The [DecryptionCompleted] event a transaction ended with, if it did. *)
Definition completed (res : Result (unit * State)) : option Event :=
  match res with
  | Ok (_, s) => last (events s)
  | Revert _ => None
  end.

(** ** Classes of calls and the storage invariant *)

(** The calls that carry the [onlyOwner] modifier. *)
Definition owner_only (c : Call) : bool :=
  match c with
  | SubmitReputationUpdate _ _ _ | MyCallback _ _ _ => false
  | _ => true
  end.

(** The calls that carry the [whenNotPaused] modifier. *)
Definition pause_gated (c : Call) : bool :=
  match c with
  | Pause | OpenBatch | CloseBatch
  | SubmitReputationUpdate _ _ _ | RequestBatchDecryption _ _ => true
  | _ => false
  end.

(** This call is a submission to batch [b]. *)
Definition submits_to (b : uint256) (c : Call) : bool :=
  match c with
  | SubmitReputationUpdate b' _ _ => b' =? b
  | _ => false
  end.

(** This transaction is a submission sent by [a]. *)
Definition submits_as (a : address) (tx : Env * Call) : bool :=
  match snd tx with
  | SubmitReputationUpdate _ _ _ => msg_sender (fst tx) =? a
  | _ => false
  end.

(** What every storage reached from the constructor satisfies. *)
Record wf (s : State) : Prop := mkWf {
  wf_batch_nonneg : 0 <= currentBatchId s;
  wf_cooldown : cooldownSeconds s <> 0;
  wf_counters : forall b, getZ (submissionsInBatch s) b = getZ (submissionsCount s) b;
  wf_count_nonneg : forall b, 0 <= getZ (submissionsCount s) b;
  wf_unopened : forall b,
      b <= 0 \/ currentBatchId s < b ->
      getB (isBatchOpen s) b = false /\ getZ (submissionsCount s) b = 0;
  wf_deltas : forall b i,
      is_Some (encryptedReputationUpdates s !! (b, i))
      <-> 0 <= i < getZ (submissionsCount s) b;
  wf_flags : forall b i,
      is_Some (encryptedIsMalicious s !! (b, i))
      <-> 0 <= i < getZ (submissionsCount s) b
}.

(** * Properties *)

(** ** Reading maps after a write *)

Lemma getZ_insert_eq {K} `{Countable K} (m : gmap K Z) k v : getZ (<[k := v]> m) k = v.
Proof. unfold getZ. by rewrite lookup_insert_eq. Qed.

Lemma getZ_insert_ne {K} `{Countable K} (m : gmap K Z) k k' v :
  k ≠ k' -> getZ (<[k := v]> m) k' = getZ m k'.
Proof. intros Hne. unfold getZ. by rewrite lookup_insert_ne. Qed.

Lemma getB_insert_eq {K} `{Countable K} (m : gmap K bool) k v : getB (<[k := v]> m) k = v.
Proof. unfold getB. by rewrite lookup_insert_eq. Qed.

Lemma getB_insert_ne {K} `{Countable K} (m : gmap K bool) k k' v :
  k ≠ k' -> getB (<[k := v]> m) k' = getB m k'.
Proof. intros Hne. unfold getB. by rewrite lookup_insert_ne. Qed.

Lemma getCtx_insert_eq (m : gmap Z DecryptionContext) k v : getCtx (<[k := v]> m) k = v.
Proof. unfold getCtx. by rewrite lookup_insert_eq. Qed.

Lemma getCtx_insert_ne (m : gmap Z DecryptionContext) k k' v :
  k ≠ k' -> getCtx (<[k := v]> m) k' = getCtx m k'.
Proof. intros Hne. unfold getCtx. by rewrite lookup_insert_ne. Qed.

(** ** Symbolic execution of transactions *)

Ltac tx_monad :=
  unfold checked_add, checked_mul, emit in *;
  unfold bind, ret, revert, gets, modify in *.

Ltac tx_guards :=
  unfold onlyOwner, onlyProvider, whenNotPaused, respectCooldown, _isValidBatch,
    _initIfNeeded in *.

Ltac tx_calls :=
  unfold exec, transferOwnership, addProvider, removeProvider, pause, unpause,
    setCooldownSeconds, openBatch, closeBatch, submitReputationUpdate,
    requestBatchDecryption, myCallback, batch_cts, _hashCiphertexts in *.

Ltac tx_run := tx_calls; tx_guards; tx_monad; simpl in *.

(** Split on the conditions a transaction tests, in program order. *)
Ltac tx_cases :=
  repeat match goal with
         | H : context [if ?b then _ else _] |- _ =>
             let E := fresh "E" in destruct b eqn:E; simpl in H; try discriminate H
         | |- context [if ?b then _ else _] =>
             let E := fresh "E" in destruct b eqn:E; simpl; try discriminate
         end.

Section Properties.

Variable this : address.
Variable keccak256_encode : list bytes32 -> address -> bytes32.
Variable checkSignatures : uint256 -> bytes -> bytes -> bool.

Local Abbreviation exec := (exec this keccak256_encode checkSignatures).
Local Abbreviation transact := (transact this keccak256_encode checkSignatures).
Local Abbreviation run := (run this keccak256_encode checkSignatures).
Local Abbreviation myCallback := (myCallback this keccak256_encode checkSignatures).
Local Abbreviation requestBatchDecryption := (requestBatchDecryption this keccak256_encode).

(** *** Ownership transfer *)

(** C9.  [transferOwnership] tests nothing about the new identity: called by
    the current owner it succeeds for every [newOwner], the zero identity
    included, paused or not, and the owner becomes [newOwner]; after a
    transfer to the zero identity every owner-only call by a non-zero
    sender is refused. *)
Theorem transferOwnership_no_guard_on_new_owner :
  forall (env : Env) (newOwner : address) (s : State),
    msg_sender env = owner s ->
    transferOwnership env newOwner s
      = Ok (tt, set_events (events s ++ [OwnershipTransferred (owner s) newOwner])
                  (set_owner newOwner s))
    /\ owner (commit (transferOwnership env newOwner) s) = newOwner
    /\ (newOwner = 0 ->
        forall env' n, msg_sender env' <> 0 ->
          transferOwnership env' n (commit (transferOwnership env newOwner) s)
            = Revert NotOwner).
Proof.
  intros env newOwner s Hown.
  assert (Hrun : transferOwnership env newOwner s
                 = Ok (tt, set_events (events s ++ [OwnershipTransferred (owner s) newOwner])
                             (set_owner newOwner s))).
  { tx_run. rewrite Hown, Z.eqb_refl. reflexivity. }
  split; [exact Hrun|].
  unfold commit. rewrite Hrun. simpl. split; [reflexivity|].
  intros -> env' n Hne. tx_run.
  destruct (msg_sender env' =? 0) eqn:E; [apply Z.eqb_eq in E; contradiction|reflexivity].
Qed.

(** *** Pausing *)

(** C7 (as the code has it).  Called by the owner, [pause] on a paused
    contract and [unpause] on an unpaused contract both revert, and with one
    and the same error, [Paused]. *)
Theorem pause_unpause_report_Paused :
  forall (env : Env) (s : State),
    msg_sender env = owner s ->
    (paused s = true -> pause env s = Revert Paused)
    /\ (paused s = false -> unpause env s = Revert Paused).
Proof.
  intros env s Hown; split; intros Hp; tx_run;
    rewrite Hown, Z.eqb_refl; simpl; rewrite Hp; reflexivity.
Qed.

(** *** The decode loop leaves the storage alone *)

Lemma abi_word_state data s w s' : abi_word data s = Ok (w, s') -> s' = s.
Proof. unfold abi_word. tx_monad. intros Hw. tx_cases. congruence. Qed.

Lemma decode_loop_state :
  forall cleartexts iters i offset reps flags s out s',
    decode_loop cleartexts iters i offset reps flags s = Ok (out, s') -> s' = s.
Proof.
  intros cleartexts iters.
  induction iters as [|iters IH]; intros i offset reps flags s out s' Hrun; simpl in Hrun.
  - tx_monad. congruence.
  - unfold abi_decode_uint32, abi_decode_bool, slice_from, abi_word in Hrun.
    tx_monad. tx_cases; eapply IH; eassumption.
Qed.

(** The callback, check by check. *)
Lemma myCallback_eq :
  forall requestId cleartexts proof s,
    myCallback requestId cleartexts proof s
    = let c := getCtx (decryptionContexts s) requestId in
      let n := getZ (submissionsCount s) (batchId c) in
      if processed c then Revert ReplayDetected
      else if negb (2 * n <=? UINT256_MAX) then Revert Panic
      else if negb (keccak256_encode (current_cts s (batchId c)) this =? stateHash c)
      then Revert StateMismatch
      else if negb (checkSignatures requestId cleartexts proof) then Revert InvalidProof
      else match decode_loop cleartexts (Z.to_nat n) 0 0
                   (replicate (Z.to_nat n) 0) (replicate (Z.to_nat n) false) s with
           | Ok (decoded, s1) =>
               Ok (tt, set_events
                         (events s1 ++ [DecryptionCompleted requestId (batchId c)
                                          (fst decoded) (snd decoded)])
                         (set_decryptionContexts
                            (<[requestId :=
                                 mkContext (batchId (getCtx (decryptionContexts s1) requestId))
                                   (stateHash (getCtx (decryptionContexts s1) requestId)) true]>
                               (decryptionContexts s1)) s1))
           | Revert e => Revert e
           end.
Proof.
  intros requestId cleartexts proof s.
  unfold myCallback, batch_cts, _hashCiphertexts, current_cts. tx_monad. simpl.
  destruct (processed (getCtx (decryptionContexts s) requestId)); [reflexivity|].
  destruct (2 * _ <=? UINT256_MAX); simpl; [|reflexivity].
  destruct (_ =? _); simpl; [|reflexivity].
  destruct (checkSignatures requestId cleartexts proof); simpl; [|reflexivity].
  destruct (decode_loop _ _ _ _ _ _ _) as [[decoded s1]|e]; reflexivity.
Qed.

(** What a successful callback did. *)
Lemma myCallback_ok :
  forall requestId cleartexts proof s s',
    myCallback requestId cleartexts proof s = Ok (tt, s') ->
    let c := getCtx (decryptionContexts s) requestId in
    processed c = false
    /\ exists deltas flags,
         s' = set_events
                (events s ++ [DecryptionCompleted requestId (batchId c) deltas flags])
                (set_decryptionContexts
                   (<[requestId := mkContext (batchId c) (stateHash c) true]>
                      (decryptionContexts s)) s).
Proof.
  intros requestId cleartexts proof s s' Hrun c. subst c.
  unfold myCallback, batch_cts, _hashCiphertexts in Hrun.
  tx_monad. simpl in Hrun.
  destruct (processed (getCtx (decryptionContexts s) requestId)) eqn:Hp; [discriminate|].
  split; [reflexivity|].
  tx_cases.
  match type of Hrun with
  | context [decode_loop ?a ?b ?c ?d ?e ?f ?g] =>
      destruct (decode_loop a b c d e f g) as [[out s1]|err] eqn:Hdec; [|discriminate]
  end.
  apply decode_loop_state in Hdec. subst s1.
  simpl in Hrun. inversion Hrun; subst. eauto.
Qed.

(** *** Owner and provider role *)

(** C8 (as the code has it).  Right after construction the owner passes the
    provider check.  A transaction keeps that, except a [transferOwnership]
    to an identity that is not a provider and a [removeProvider] of the owner
    itself; [removeProvider] never changes the owner.  After either of the two
    exceptions, sent by the owner, the owner fails the provider check: the
    transfer makes the non-provider the owner, and the removal leaves the
    owner in place without provider status. *)
Theorem owner_is_provider_unless_transferred_or_removed :
  (forall env, getB (isProvider (deploy env)) (owner (deploy env)) = true)
  /\ (forall env c s,
        getB (isProvider s) (owner s) = true ->
        (forall n, c = TransferOwnership n -> getB (isProvider s) n = true) ->
        c <> RemoveProvider (owner s) ->
        getB (isProvider (transact (env, c) s)) (owner (transact (env, c) s)) = true)
  /\ (forall env p s, owner (transact (env, RemoveProvider p) s) = owner s)
  /\ (forall env n s,
        msg_sender env = owner s ->
        getB (isProvider s) n = false ->
        owner (transact (env, TransferOwnership n) s) = n
        /\ getB (isProvider (transact (env, TransferOwnership n) s))
                (owner (transact (env, TransferOwnership n) s)) = false)
  /\ (forall env s,
        msg_sender env = owner s ->
        owner (transact (env, RemoveProvider (owner s)) s) = owner s
        /\ getB (isProvider (transact (env, RemoveProvider (owner s)) s))
                (owner (transact (env, RemoveProvider (owner s)) s)) = false).
Proof.
  split; [|split; [|split; [|split]]].
  - intros env. unfold deploy, commit, constructor. tx_monad. simpl.
    apply getB_insert_eq.
  - intros env c s Hinv Htransfer Hremove.
    unfold transact, commit. simpl.
    destruct (exec env c s) as [[[] s']|e] eqn:Hrun; [|exact Hinv].
    destruct c.
    + specialize (Htransfer newOwner eq_refl).
      tx_run. tx_cases. inversion Hrun; subst; simpl. exact Htransfer.
    + tx_run. tx_cases; inversion Hrun; subst; simpl; [|exact Hinv].
      destruct (decide (provider = owner s)) as [->|Hne].
      * apply getB_insert_eq.
      * rewrite getB_insert_ne by exact Hne. exact Hinv.
    + tx_run. tx_cases; inversion Hrun; subst; simpl; [|exact Hinv].
      rewrite getB_insert_ne; [exact Hinv|]. congruence.
    + tx_run. tx_cases. inversion Hrun; subst; simpl. exact Hinv.
    + tx_run. tx_cases. inversion Hrun; subst; simpl. exact Hinv.
    + tx_run. tx_cases. inversion Hrun; subst; simpl. exact Hinv.
    + tx_run. tx_cases. inversion Hrun; subst; simpl. exact Hinv.
    + tx_run. tx_cases. inversion Hrun; subst; simpl. exact Hinv.
    + tx_run. tx_cases. inversion Hrun; subst; simpl. exact Hinv.
    + tx_run. tx_cases. inversion Hrun; subst; simpl. exact Hinv.
    + simpl in Hrun. apply myCallback_ok in Hrun.
      destruct Hrun as [_ (deltas & flags & ->)]. simpl. exact Hinv.
  - intros env p s. unfold transact, commit. simpl.
    destruct (removeProvider env p s) as [[[] s']|e] eqn:Hrun; [|reflexivity].
    tx_run. tx_cases; inversion Hrun; subst; reflexivity.
  - intros env n s Hown Hnot. unfold transact, commit. tx_run.
    rewrite Hown, Z.eqb_refl. simpl. split; [reflexivity|exact Hnot].
  - intros env s Hown. unfold transact, commit. tx_run.
    rewrite Hown, Z.eqb_refl. simpl.
    destruct (getB (isProvider s) (owner s)) eqn:Hp; simpl.
    + split; [reflexivity|apply getB_insert_eq].
    + split; [reflexivity|exact Hp].
Qed.

(** *** Submissions *)

(** C6.  A [submitReputationUpdate] that fails a guard (the caller is not a
    provider, the contract is paused, the cooldown has not elapsed, or the
    batch is closed or invalid) reverts and leaves the whole storage, the
    caller's last-submission time included, as it was.  A call that succeeds
    passed every guard, and sets the caller's last-submission time to the
    block time, the other actors' times staying as they were. *)
Theorem submit_rejected_consumes_no_cooldown :
  forall (env : Env) (b : uint256) (ctA ctB : bytes32) (s : State),
    ((getB (isProvider s) (msg_sender env) = false
      \/ paused s = true
      \/ block_timestamp env
           < getZ (lastSubmissionTime s) (msg_sender env) + cooldownSeconds s
      \/ ~ (0 < b <= currentBatchId s /\ getB (isBatchOpen s) b = true)) ->
     (exists e, submitReputationUpdate env b ctA ctB s = Revert e
                /\ In e [NotProvider; Paused; CooldownActive; Panic; BatchClosedOrInvalid])
     /\ commit (submitReputationUpdate env b ctA ctB) s = s
     /\ getZ (lastSubmissionTime (commit (submitReputationUpdate env b ctA ctB) s))
          (msg_sender env)
        = getZ (lastSubmissionTime s) (msg_sender env))
    /\ (forall s', submitReputationUpdate env b ctA ctB s = Ok (tt, s') ->
          getB (isProvider s) (msg_sender env) = true
          /\ paused s = false
          /\ getZ (lastSubmissionTime s) (msg_sender env) + cooldownSeconds s
               <= block_timestamp env
          /\ (0 < b <= currentBatchId s /\ getB (isBatchOpen s) b = true)
          /\ lastSubmissionTime s'
             = <[msg_sender env := block_timestamp env]> (lastSubmissionTime s)).
Proof using Type.
  intros env b ctA ctB s. split.
  - intros Hfail.
    assert (Hrev : exists e, submitReputationUpdate env b ctA ctB s = Revert e
                /\ In e [NotProvider; Paused; CooldownActive; Panic; BatchClosedOrInvalid]).
    { tx_run.
      destruct (getB (isProvider s) (msg_sender env)) eqn:Hprov; simpl;
        [|eexists; split; [reflexivity|simpl; auto 10]].
      destruct (paused s) eqn:Hpaused; simpl;
        [eexists; split; [reflexivity|simpl; auto 10]|].
      destruct (_ <=? UINT256_MAX) eqn:Hsum; simpl;
        [|eexists; split; [reflexivity|simpl; auto 10]].
      destruct (block_timestamp env <? _) eqn:Hcool; simpl;
        [eexists; split; [reflexivity|simpl; auto 10]|].
      apply Z.ltb_ge in Hcool.
      destruct Hfail as [Hf|[Hf|[Hf|Hf]]]; [discriminate|discriminate|lia|].
      destruct ((0 <? b) && (b <=? currentBatchId s) && getB (isBatchOpen s) b) eqn:Hvalid;
        simpl; [|eexists; split; [reflexivity|simpl; auto 10]].
      exfalso. apply Hf.
      apply andb_prop in Hvalid as [Hvalid Hopen].
      apply andb_prop in Hvalid as [Hlo Hhi].
      apply Z.ltb_lt in Hlo. apply Z.leb_le in Hhi. auto. }
    destruct Hrev as (e & Hrev & Hin).
    split; [eauto|].
    unfold commit. rewrite Hrev. split; reflexivity.
  - intros s' Hrun. tx_run. tx_cases. inversion Hrun; subst; simpl.
    match goal with H : (_ <? _) = false |- _ => apply Z.ltb_ge in H end.
    match goal with H : negb _ = false |- _ => apply negb_false_iff in H;
      apply andb_prop in H as [H Hopen]; apply andb_prop in H as [Hlo Hhi] end.
    apply Z.ltb_lt in Hlo. apply Z.leb_le in Hhi.
    match goal with H : negb (getB _ _) = false |- _ => apply negb_false_iff in H end.
    repeat split; try assumption; try lia.
Qed.

(** C10.  [submitReputationUpdate] accepts a submission to every batch [b]
    with [1 <= b <= currentBatchId] whose open flag is set, the most recent or
    not, once the role, pause and cooldown guards pass: the pair is stored at
    the batch's next index and no batch is opened or closed by it.  Opening a
    further batch leaves [b] open and valid, so several batches accept
    submissions side by side. *)
Theorem submit_accepted_by_every_open_batch :
  forall (env : Env) (b : uint256) (ctA ctB : bytes32) (s : State),
    getB (isProvider s) (msg_sender env) = true ->
    paused s = false ->
    getZ (lastSubmissionTime s) (msg_sender env) + cooldownSeconds s
      <= block_timestamp env ->
    block_timestamp env <= UINT256_MAX ->
    getZ (submissionsInBatch s) b < UINT256_MAX ->
    getZ (submissionsCount s) b < UINT256_MAX ->
    1 <= b <= currentBatchId s ->
    getB (isBatchOpen s) b = true ->
    (exists s',
        submitReputationUpdate env b ctA ctB s = Ok (tt, s')
        /\ getZ (encryptedReputationUpdates s') (b, getZ (submissionsInBatch s) b) = ctA
        /\ getZ (encryptedIsMalicious s') (b, getZ (submissionsInBatch s) b) = ctB
        /\ getZ (submissionsCount s') b = getZ (submissionsCount s) b + 1
        /\ isBatchOpen s' = isBatchOpen s
        /\ currentBatchId s' = currentBatchId s)
    /\ (forall env' s1, openBatch env' s = Ok (tt, s1) ->
          currentBatchId s1 = currentBatchId s + 1
          /\ getB (isBatchOpen s1) (currentBatchId s1) = true
          /\ 1 <= b <= currentBatchId s1
          /\ getB (isBatchOpen s1) b = true).
Proof.
  intros env b ctA ctB s Hprov Hpaused Hcool Hnow HinBatch Hcount Hb Hopen. split.
  - tx_run. rewrite Hprov. simpl. rewrite Hpaused. simpl.
    replace (_ + cooldownSeconds s <=? UINT256_MAX) with true
      by (symmetry; apply Z.leb_le; lia).
    simpl.
    replace (block_timestamp env <? _) with false by (symmetry; apply Z.ltb_ge; lia).
    simpl. rewrite Hopen.
    replace (0 <? b) with true by (symmetry; apply Z.ltb_lt; lia).
    replace (b <=? currentBatchId s) with true by (symmetry; apply Z.leb_le; lia).
    simpl.
    replace (getZ (submissionsInBatch s) b + 1 <=? UINT256_MAX) with true
      by (symmetry; apply Z.leb_le; lia).
    simpl.
    replace (getZ (submissionsCount s) b + 1 <=? UINT256_MAX) with true
      by (symmetry; apply Z.leb_le; lia).
    simpl. eexists. split; [reflexivity|]. simpl.
    rewrite !getZ_insert_eq. repeat split; reflexivity.
  - intros env' s1 Hrun. tx_run. tx_cases. inversion Hrun; subst; simpl.
    rewrite getB_insert_eq. rewrite getB_insert_ne by lia.
    repeat split; try assumption; lia.
Qed.

(** *** What one transaction can change *)

Lemma exec_effect :
  forall env c s s',
    exec env c s = Ok (tt, s') ->
    (submissionsCount s' = submissionsCount s
     \/ exists b ctA ctB,
          c = SubmitReputationUpdate b ctA ctB /\ 0 < b
          /\ submissionsCount s'
             = <[b := getZ (submissionsCount s) b + 1]> (submissionsCount s))
    /\ (decryptionContexts s' = decryptionContexts s
        \/ (exists b r h,
              c = RequestBatchDecryption b r
              /\ decryptionContexts s' = <[r := mkContext b h false]> (decryptionContexts s))
        \/ (exists r ct pf,
              c = MyCallback r ct pf
              /\ processed (getCtx (decryptionContexts s) r) = false
              /\ decryptionContexts s'
                 = <[r := mkContext (batchId (getCtx (decryptionContexts s) r))
                                    (stateHash (getCtx (decryptionContexts s) r)) true]>
                     (decryptionContexts s))).
Proof.
  intros env c s s' Hrun.
  destruct c;
    try (tx_run; tx_cases; inversion Hrun; subst; simpl; split; left; reflexivity).
  - (* submitReputationUpdate *)
    tx_run. tx_cases. inversion Hrun; subst; simpl. split; [right|left; reflexivity].
    match goal with H : negb _ = false |- _ => apply negb_false_iff in H;
      apply andb_prop in H as [H _]; apply andb_prop in H as [Hlo _] end.
    apply Z.ltb_lt in Hlo. eauto 10.
  - (* requestBatchDecryption *)
    tx_run. tx_cases. inversion Hrun; subst; simpl. split; [left; reflexivity|].
    right; left. eauto.
  - (* myCallback *)
    simpl in Hrun. apply myCallback_ok in Hrun.
    destruct Hrun as [Hp (deltas & flags & ->)]. simpl.
    split; [left; reflexivity|]. right; right. eauto 10.
Qed.

Lemma transact_cases :
  forall tx s,
    transact tx s = s \/ exec (fst tx) (snd tx) s = Ok (tt, transact tx s).
Proof.
  intros [env c] s. unfold transact, commit. simpl.
  destruct (exec env c s) as [[[] s']|e]; auto.
Qed.

Lemma run_cons tx txs s : run (tx :: txs) s = run txs (transact tx s).
Proof. reflexivity. Qed.

Lemma run_app txs1 txs2 s : run (txs1 ++ txs2) s = run txs2 (run txs1 s).
Proof. unfold run. apply fold_left_app. Qed.

(** Submission counters only grow; batch 0 never gets a submission. *)
Lemma transact_count_mono tx s b :
  getZ (submissionsCount s) b <= getZ (submissionsCount (transact tx s)) b.
Proof.
  destruct (transact_cases tx s) as [->|Hrun]; [lia|].
  apply exec_effect in Hrun as [[->|(b' & ctA & ctB & _ & _ & ->)] _]; [lia|].
  destruct (decide (b' = b)) as [->|Hne].
  - rewrite getZ_insert_eq. lia.
  - rewrite getZ_insert_ne by exact Hne. lia.
Qed.

Lemma run_count_mono txs s b :
  getZ (submissionsCount s) b <= getZ (submissionsCount (run txs s)) b.
Proof.
  revert s. induction txs as [|tx txs IH]; intros s; [simpl; lia|].
  rewrite run_cons. pose proof (transact_count_mono tx s b). specialize (IH (transact tx s)). lia.
Qed.

Lemma transact_count_zero tx s :
  getZ (submissionsCount (transact tx s)) 0 = getZ (submissionsCount s) 0.
Proof.
  destruct (transact_cases tx s) as [->|Hrun]; [reflexivity|].
  apply exec_effect in Hrun as [[->|(b' & ctA & ctB & _ & Hpos & ->)] _]; [reflexivity|].
  apply getZ_insert_ne. lia.
Qed.

Lemma deploy_count env b : getZ (submissionsCount (deploy env)) b = 0.
Proof. reflexivity. Qed.

Lemma reachable_count_nonneg s b :
  reachable this keccak256_encode checkSignatures s -> 0 <= getZ (submissionsCount s) b.
Proof.
  intros (env & txs & ->).
  pose proof (run_count_mono txs (deploy env) b). rewrite deploy_count in *. lia.
Qed.

(** *** At most one successful callback per request id *)

Lemma transact_keeps_processed k tx s :
  issues k (snd tx) = false ->
  processed (getCtx (decryptionContexts s) k) = true ->
  processed (getCtx (decryptionContexts (transact tx s)) k) = true.
Proof.
  intros Hfresh Hp.
  destruct (transact_cases tx s) as [->|Hrun]; [exact Hp|].
  apply exec_effect in Hrun as [_ [->|[(b & r & h & Hc & ->)|(r & ct & pf & Hc & Hnp & ->)]]].
  - exact Hp.
  - rewrite Hc in Hfresh. simpl in Hfresh. apply Z.eqb_neq in Hfresh.
    rewrite getCtx_insert_ne by exact Hfresh. exact Hp.
  - destruct (decide (r = k)) as [->|Hne].
    + rewrite getCtx_insert_eq. reflexivity.
    + rewrite getCtx_insert_ne by exact Hne. exact Hp.
Qed.

Lemma run_keeps_processed k txs s :
  Forall (fun tx => issues k (snd tx) = false) txs ->
  processed (getCtx (decryptionContexts s) k) = true ->
  processed (getCtx (decryptionContexts (run txs s)) k) = true.
Proof.
  intros Hfresh. revert s.
  induction Hfresh as [|tx txs Htx _ IH]; intros s Hp; [exact Hp|].
  rewrite run_cons. apply IH. apply transact_keeps_processed; assumption.
Qed.

(** C1.  Once a callback for request id [r] has succeeded, its context is
    marked processed and, whatever transactions follow (the oracle handing out
    [r] to no later request), every further callback for [r] reverts with
    [ReplayDetected] and leaves the storage as it was. *)
Theorem callback_succeeds_at_most_once :
  forall (r : uint256) (cleartexts proof : bytes) (s s1 : State),
    myCallback r cleartexts proof s = Ok (tt, s1) ->
    forall txs : list (Env * Call),
      Forall (fun tx => issues r (snd tx) = false) txs ->
      forall cleartexts' proof' : bytes,
        processed (getCtx (decryptionContexts s1) r) = true
        /\ myCallback r cleartexts' proof' (run txs s1) = Revert ReplayDetected
        /\ commit (myCallback r cleartexts' proof') (run txs s1) = run txs s1.
Proof.
  intros r cleartexts proof s s1 Hok txs Hfresh cleartexts' proof'.
  apply myCallback_ok in Hok. destruct Hok as [_ (deltas & flags & ->)].
  assert (Hp : processed (getCtx (decryptionContexts
                 (set_events (events s ++ [DecryptionCompleted r
                    (batchId (getCtx (decryptionContexts s) r)) deltas flags])
                 (set_decryptionContexts
                   (<[r := mkContext (batchId (getCtx (decryptionContexts s) r))
                                     (stateHash (getCtx (decryptionContexts s) r)) true]>
                      (decryptionContexts s)) s))) r) = true).
  { simpl. rewrite getCtx_insert_eq. reflexivity. }
  split; [exact Hp|].
  pose proof (run_keeps_processed r txs _ Hfresh Hp) as Hlater.
  assert (Hrev : forall st, processed (getCtx (decryptionContexts st) r) = true ->
                   myCallback r cleartexts' proof' st = Revert ReplayDetected).
  { intros st Hst. unfold myCallback. tx_monad. simpl. rewrite Hst. reflexivity. }
  split; [apply Hrev; exact Hlater|].
  unfold commit. rewrite (Hrev _ Hlater). reflexivity.
Qed.

(** *** A submission after the request invalidates the pending callback *)

Lemma collect_cts_length :
  forall s b n iters i cts, length (collect_cts s b n iters i cts) = length cts.
Proof.
  intros s b n iters. induction iters as [|iters IH]; intros i cts; simpl; [reflexivity|].
  rewrite IH, !length_insert. reflexivity.
Qed.

Lemma current_cts_length s b :
  length (current_cts s b) = Z.to_nat (2 * getZ (submissionsCount s) b).
Proof. unfold current_cts. rewrite collect_cts_length. apply length_replicate. Qed.

Lemma requestBatchDecryption_ok :
  forall env b r s s1,
    requestBatchDecryption env b r s = Ok (tt, s1) ->
    getZ (submissionsCount s) b <> 0
    /\ submissionsCount s1 = submissionsCount s
    /\ decryptionContexts s1
       = <[r := mkContext b (keccak256_encode (current_cts s b) this) false]>
           (decryptionContexts s).
Proof.
  intros env b r s s1 Hrun. tx_run. tx_cases. inversion Hrun; subst; simpl.
  match goal with H : (_ =? 0) = false |- _ => apply Z.eqb_neq in H end.
  repeat split; assumption || reflexivity.
Qed.

Lemma submitReputationUpdate_ok_count :
  forall env b ctA ctB s s',
    submitReputationUpdate env b ctA ctB s = Ok (tt, s') ->
    getZ (submissionsCount s') b = getZ (submissionsCount s) b + 1.
Proof.
  intros env b ctA ctB s s' Hrun. tx_run. tx_cases. inversion Hrun; subst; simpl.
  apply getZ_insert_eq.
Qed.

Lemma transact_keeps_context k tx s :
  issues k (snd tx) = false /\ answers k (snd tx) = false ->
  decryptionContexts (transact tx s) !! k = decryptionContexts s !! k.
Proof.
  intros [Hfresh Hquiet].
  destruct (transact_cases tx s) as [->|Hrun]; [reflexivity|].
  apply exec_effect in Hrun as [_ [->|[(b & r & h & Hc & ->)|(r & ct & pf & Hc & _ & ->)]]].
  - reflexivity.
  - rewrite Hc in Hfresh. simpl in Hfresh. apply Z.eqb_neq in Hfresh.
    apply lookup_insert_ne. exact Hfresh.
  - rewrite Hc in Hquiet. simpl in Hquiet. apply Z.eqb_neq in Hquiet.
    apply lookup_insert_ne. exact Hquiet.
Qed.

Lemma run_keeps_context k txs s :
  Forall (fun tx => issues k (snd tx) = false /\ answers k (snd tx) = false) txs ->
  decryptionContexts (run txs s) !! k = decryptionContexts s !! k.
Proof.
  intros Hq. revert s. induction Hq as [|tx txs Htx _ IH]; intros s; [reflexivity|].
  rewrite run_cons, IH. apply transact_keeps_context. exact Htx.
Qed.

(** The callback on a pending context whose batch has grown. *)
Lemma myCallback_grown_batch :
  forall r b frozen_cts s ct pf,
    decryptionContexts s !! r
      = Some (mkContext b (keccak256_encode frozen_cts this) false) ->
    2 * getZ (submissionsCount s) b <= UINT256_MAX ->
    length frozen_cts <> length (current_cts s b) ->
    (keccak256_encode (current_cts s b) this = keccak256_encode frozen_cts this ->
     current_cts s b = frozen_cts) ->
    myCallback r ct pf s = Revert StateMismatch.
Proof.
  intros r b frozen_cts s ct pf Hctx Hfit Hlen Hcr.
  rewrite myCallback_eq. unfold getCtx. rewrite Hctx. simpl.
  replace (2 * getZ (submissionsCount s) b <=? UINT256_MAX) with true
    by (symmetry; apply Z.leb_le; exact Hfit).
  simpl.
  destruct (keccak256_encode (current_cts s b) this =? keccak256_encode frozen_cts this)
    eqn:Heq; simpl; [|reflexivity].
  apply Z.eqb_eq in Heq. apply Hcr in Heq. rewrite Heq in Hlen. contradiction.
Qed.

(** C2.  Let [requestBatchDecryption] on batch [b] succeed with request id
    [r], and let the transactions before the callback for [r] contain an
    accepted submission to [b] (the oracle giving [r] to no other request, and
    no earlier callback for [r]).  Then the callback reverts with
    [StateMismatch] and the context is still the frozen, unprocessed one.
    The digest is taken not to collide on the frozen and the current handle
    arrays, and the current array to fit a [uint256] length. *)
Theorem submission_after_request_forces_StateMismatch :
  forall (envr : Env) (b r : uint256) (s s1 : State),
    reachable this keccak256_encode checkSignatures s ->
    requestBatchDecryption envr b r s = Ok (tt, s1) ->
    forall (txs1 : list (Env * Call)) (envs : Env) (ctA ctB : bytes32) (s' : State)
           (txs2 : list (Env * Call)),
      submitReputationUpdate envs b ctA ctB (run txs1 s1) = Ok (tt, s') ->
      Forall (fun tx => issues r (snd tx) = false /\ answers r (snd tx) = false)
        (txs1 ++ (envs, SubmitReputationUpdate b ctA ctB) :: txs2) ->
      2 * getZ (submissionsCount
                  (run (txs1 ++ (envs, SubmitReputationUpdate b ctA ctB) :: txs2) s1)) b
        <= UINT256_MAX ->
      (keccak256_encode
         (current_cts (run (txs1 ++ (envs, SubmitReputationUpdate b ctA ctB) :: txs2) s1) b)
         this
       = keccak256_encode (current_cts s b) this ->
       current_cts (run (txs1 ++ (envs, SubmitReputationUpdate b ctA ctB) :: txs2) s1) b
       = current_cts s b) ->
      forall cleartexts proof : bytes,
        let s2 := run (txs1 ++ (envs, SubmitReputationUpdate b ctA ctB) :: txs2) s1 in
        myCallback r cleartexts proof s2 = Revert StateMismatch
        /\ commit (myCallback r cleartexts proof) s2 = s2
        /\ getCtx (decryptionContexts s2) r
           = mkContext b (keccak256_encode (current_cts s b) this) false.
Proof.
  intros envr b r s s1 Hreach Hreq txs1 envs ctA ctB s' txs2 Hsub Hquiet Hfit Hcr
         cleartexts proof s2.
  apply requestBatchDecryption_ok in Hreq as (Hpos & Hcount1 & Hctx1).
  pose proof (reachable_count_nonneg s b Hreach) as Hnonneg.
  assert (Hctx2 : decryptionContexts s2 !! r
                  = Some (mkContext b (keccak256_encode (current_cts s b) this) false)).
  { subst s2. rewrite (run_keeps_context r _ s1 Hquiet), Hctx1.
    apply lookup_insert_eq. }
  assert (Hgrow : getZ (submissionsCount s) b < getZ (submissionsCount s2) b).
  { subst s2. rewrite run_app, run_cons.
    assert (Hstep : transact (envs, SubmitReputationUpdate b ctA ctB) (run txs1 s1) = s').
    { unfold transact, commit. simpl. rewrite Hsub. reflexivity. }
    rewrite Hstep.
    pose proof (run_count_mono txs2 s' b) as Hafter.
    pose proof (run_count_mono txs1 s1 b) as Hbefore.
    apply submitReputationUpdate_ok_count in Hsub.
    rewrite Hcount1 in Hbefore. lia. }
  assert (Hrev : myCallback r cleartexts proof s2 = Revert StateMismatch).
  { apply (myCallback_grown_batch r b (current_cts s b)); try assumption.
    rewrite !current_cts_length. lia. }
  split; [exact Hrev|]. split.
  - unfold commit. rewrite Hrev. reflexivity.
  - unfold getCtx. rewrite Hctx2. reflexivity.
Qed.

(** *** A callback for a request id that was never issued *)

Lemma myCallback_unknown :
  forall r s ct pf,
    decryptionContexts s !! r = None ->
    getZ (submissionsCount s) 0 = 0 ->
    keccak256_encode [] this <> 0 ->
    myCallback r ct pf s = Revert StateMismatch.
Proof.
  intros r s ct pf Hnone Hzero Hhash.
  rewrite myCallback_eq. unfold getCtx, current_cts. rewrite Hnone. simpl.
  rewrite Hzero. simpl.
  destruct (keccak256_encode [] this =? 0) eqn:Heq; simpl; [|reflexivity].
  apply Z.eqb_eq in Heq. contradiction.
Qed.

Lemma transact_keeps_unknown r tx s :
  keccak256_encode [] this <> 0 ->
  issues r (snd tx) = false ->
  decryptionContexts s !! r = None /\ getZ (submissionsCount s) 0 = 0 ->
  decryptionContexts (transact tx s) !! r = None
  /\ getZ (submissionsCount (transact tx s)) 0 = 0.
Proof.
  intros Hhash Hfresh [Hnone Hzero].
  split; [|rewrite transact_count_zero; exact Hzero].
  destruct (transact_cases tx s) as [->|Hrun]; [exact Hnone|].
  pose proof Hrun as Heff.
  apply exec_effect in Heff as [_ [->|[(b & k & h & Hc & ->)|(k & ct & pf & Hc & _ & ->)]]].
  - exact Hnone.
  - rewrite Hc in Hfresh. simpl in Hfresh. apply Z.eqb_neq in Hfresh.
    rewrite lookup_insert_ne by exact Hfresh. exact Hnone.
  - destruct (decide (k = r)) as [->|Hne].
    + rewrite Hc in Hrun. simpl in Hrun.
      rewrite (myCallback_unknown r s ct pf Hnone Hzero Hhash) in Hrun. discriminate.
    + rewrite lookup_insert_ne by exact Hne. exact Hnone.
Qed.

(** C3 (as the code has it).  For a request id [r] that no earlier
    [requestBatchDecryption] returned, no context is stored and the callback
    reverts, with [StateMismatch] and not [ReplayDetected]: the absent context
    reads as batch 0 with the zero digest and unprocessed, so the replay check
    passes and the digest of batch 0's empty handle array (taken to differ
    from the zero word) is compared with zero. *)
Theorem callback_for_unissued_request_reverts_StateMismatch :
  forall (env : Env) (txs : list (Env * Call)) (r : uint256),
    Forall (fun tx => issues r (snd tx) = false) txs ->
    keccak256_encode [] this <> 0 ->
    forall cleartexts proof : bytes,
      decryptionContexts (run txs (deploy env)) !! r = None
      /\ myCallback r cleartexts proof (run txs (deploy env)) = Revert StateMismatch
      /\ myCallback r cleartexts proof (run txs (deploy env)) <> Revert ReplayDetected.
Proof.
  intros env txs r Hfresh Hhash cleartexts proof.
  assert (Hinv : forall s,
             decryptionContexts s !! r = None /\ getZ (submissionsCount s) 0 = 0 ->
             decryptionContexts (run txs s) !! r = None
             /\ getZ (submissionsCount (run txs s)) 0 = 0).
  { induction Hfresh as [|tx txs Htx _ IH]; intros s Hs; [exact Hs|].
    rewrite run_cons. apply IH. apply transact_keeps_unknown; assumption. }
  destruct (Hinv (deploy env)) as [Hnone Hzero]; [split; reflexivity|].
  split; [exact Hnone|].
  rewrite (myCallback_unknown r _ cleartexts proof Hnone Hzero Hhash).
  split; [reflexivity|discriminate].
Qed.

(** *** The cooldown check of decryption requests *)

(** The outcome of [requestBatchDecryption] does not depend on the recorded
    decryption-request times. *)
Lemma requestBatchDecryption_ignores_request_times :
  forall env b r s (m : gmap Z Z),
    match requestBatchDecryption env b r s,
          requestBatchDecryption env b r (set_lastDecryptionRequestTime m s) with
    | Revert e1, Revert e2 => e1 = e2
    | Ok _, Ok _ => True
    | _, _ => False
    end.
Proof.
  intros env b r s m. tx_run. tx_cases; auto.
Qed.

(** Its cooldown check is the one of submissions. *)
Lemma requestBatchDecryption_cooldown_of_submission :
  forall env b r s,
    msg_sender env = owner s ->
    paused s = false ->
    getZ (lastSubmissionTime s) (msg_sender env) + cooldownSeconds s <= UINT256_MAX ->
    block_timestamp env < getZ (lastSubmissionTime s) (msg_sender env) + cooldownSeconds s ->
    requestBatchDecryption env b r s = Revert CooldownActive.
Proof.
  intros env b r s Hown Hpaused Hfit Hcool. tx_run.
  rewrite Hown, Z.eqb_refl. simpl. rewrite Hpaused. simpl.
  rewrite <- Hown.
  replace (_ + cooldownSeconds s <=? UINT256_MAX) with true
    by (symmetry; apply Z.leb_le; exact Hfit).
  simpl.
  replace (block_timestamp env <? _) with true by (symmetry; apply Z.ltb_lt; exact Hcool).
  reflexivity.
Qed.

(** *** Where the decoded deltas come from *)

(** Every iteration of the decode loop stores the first word of the buffer,
    whatever the running offset. *)
Lemma decode_loop_deltas :
  forall cleartexts iters i offset reps flags s out s',
    0 <= i ->
    decode_loop cleartexts iters i offset reps flags s = Ok (out, s') ->
    length (fst out) = length reps
    /\ forall j : nat,
         ((j < Z.to_nat i)%nat -> fst out !! j = reps !! j)
         /\ ((Z.to_nat i <= j < Z.to_nat i + iters)%nat -> (j < length reps)%nat ->
             fst out !! j = Some (be_word (take 32 cleartexts))).
Proof.
  intros cleartexts iters.
  induction iters as [|iters IH]; intros i offset reps flags s out s' Hi Hrun; simpl in Hrun.
  - tx_monad. inversion Hrun; subst; simpl. split; [reflexivity|].
    intros j. split; [reflexivity|lia].
  - unfold abi_decode_uint32, abi_decode_bool, slice_from, abi_word in Hrun.
    tx_monad. tx_cases;
      (apply IH in Hrun as [Hlen Hget]; [|lia];
       rewrite length_insert in Hlen; split; [exact Hlen|];
       intros j; destruct (Hget j) as [Hbefore Hwritten];
       rewrite length_insert in Hwritten; split;
       [ intros Hj; rewrite Hbefore by lia; apply list_lookup_insert_ne; lia
       | intros Hj Hin; destruct (decide (j = Z.to_nat i)) as [->|Hne];
         [ rewrite Hbefore by lia; apply list_lookup_insert_eq; exact Hin
         | apply Hwritten; lia ] ]).
Qed.

(** A successful callback publishes, for every submission of the batch, the
    same delta: the first word of the cleartext buffer. *)
Lemma myCallback_publishes_one_delta :
  forall requestId cleartexts proof s s',
    myCallback requestId cleartexts proof s = Ok (tt, s') ->
    let c := getCtx (decryptionContexts s) requestId in
    exists flags,
      last (events s')
      = Some (DecryptionCompleted requestId (batchId c)
                (replicate (Z.to_nat (getZ (submissionsCount s) (batchId c)))
                   (be_word (take 32 cleartexts)))
                flags).
Proof.
  intros requestId cleartexts proof s s' Hrun c. subst c.
  rewrite myCallback_eq in Hrun. simpl in Hrun. tx_cases.
  destruct (decode_loop _ _ _ _ _ _ _) as [[out s1]|e] eqn:Hdec; [|discriminate].
  inversion Hrun; subst; simpl. rewrite last_snoc.
  apply decode_loop_deltas in Hdec as [Hlen Hget]; [|lia].
  rewrite length_replicate in Hlen.
  exists (snd out). do 2 f_equal.
  apply list_eq. intros j.
  destruct (decide (j < Z.to_nat (getZ (submissionsCount s)
                       (batchId (getCtx (decryptionContexts s) requestId))))%nat) as [Hj|Hj].
  - rewrite lookup_replicate_2 by exact Hj.
    apply (proj2 (Hget j)); [simpl; lia|rewrite length_replicate; exact Hj].
  - rewrite !lookup_ge_None_2; [reflexivity|rewrite length_replicate; lia|lia].
Qed.

End Properties.

(** * Further properties of the contract *)

Section MoreProperties.

Variable this : address.
Variable keccak256_encode : list bytes32 -> address -> bytes32.
Variable checkSignatures : uint256 -> bytes -> bytes -> bool.

Local Abbreviation exec := (exec this keccak256_encode checkSignatures).
Local Abbreviation transact := (transact this keccak256_encode checkSignatures).
Local Abbreviation run := (run this keccak256_encode checkSignatures).
Local Abbreviation myCallback := (myCallback this keccak256_encode checkSignatures).
Local Abbreviation requestBatchDecryption := (requestBatchDecryption this keccak256_encode).
Local Abbreviation reachable := (reachable this keccak256_encode checkSignatures).

(** Turn a successful [exec] into the storage it produced. *)
Ltac exec_inv Hrun :=
  first
    [ apply (myCallback_ok this keccak256_encode checkSignatures) in Hrun;
      destruct Hrun as [? (? & ? & ->)]
    | tx_run; tx_cases; inversion Hrun; subst; clear Hrun ].

(** *** The storage invariant *)

Lemma deploy_wf env : wf (deploy env).
Proof.
  split; simpl.
  - lia.
  - discriminate.
  - reflexivity.
  - intros b. reflexivity.
  - intros b _. split; reflexivity.
  - intros b i. unfold getZ. rewrite !lookup_empty. simpl.
    split; [intros [x Hx]; discriminate|lia].
  - intros b i. unfold getZ. rewrite !lookup_empty. simpl.
    split; [intros [x Hx]; discriminate|lia].
Qed.

Lemma exec_wf env c s s' :
  wf s -> exec env c s = Ok (tt, s') -> wf s'.
Proof.
  intros Hwf Hrun. destruct Hwf as [Hcur Hcd Hcnt Hnn Hun Hdel Hflg].
  destruct c; exec_inv Hrun; try (split; simpl; assumption).
  - (* setCooldownSeconds *)
    split; simpl; try assumption.
    match goal with H : (_ =? 0) = false |- _ => apply Z.eqb_neq in H; exact H end.
  - (* openBatch *)
    split; simpl; try assumption.
    + lia.
    + intros b. destruct (decide (currentBatchId s + 1 = b)) as [<-|Hne].
      * rewrite getZ_insert_eq. symmetry. apply Hun. lia.
      * rewrite getZ_insert_ne by exact Hne. apply Hcnt.
    + intros b Hb. rewrite getB_insert_ne by lia. apply Hun. lia.
  - (* closeBatch *)
    split; simpl; try assumption.
    intros b Hb. split; [|apply Hun; exact Hb].
    destruct (decide (currentBatchId s = b)) as [<-|Hne].
    + apply getB_insert_eq.
    + rewrite getB_insert_ne by exact Hne. apply Hun. exact Hb.
  - (* submitReputationUpdate *)
    match goal with H : negb _ = false |- _ => apply negb_false_iff in H;
      apply andb_prop in H as [H Hopen]; apply andb_prop in H as [Hlo Hhi] end.
    apply Z.ltb_lt in Hlo. apply Z.leb_le in Hhi.
    split; simpl; try assumption.
    + intros b. destruct (decide (_batchId = b)) as [<-|Hne].
      * rewrite !getZ_insert_eq. rewrite Hcnt. reflexivity.
      * rewrite !getZ_insert_ne by exact Hne. apply Hcnt.
    + intros b. destruct (decide (_batchId = b)) as [<-|Hne].
      * rewrite getZ_insert_eq. pose proof (Hnn _batchId). lia.
      * rewrite getZ_insert_ne by exact Hne. apply Hnn.
    + intros b Hb. rewrite getZ_insert_ne by lia. apply Hun. exact Hb.
    + intros b i. rewrite Hcnt.
      destruct (decide (_batchId = b)) as [<-|Hne].
      * rewrite getZ_insert_eq.
        destruct (decide (getZ (submissionsCount s) _batchId = i)) as [<-|Hi].
        -- rewrite lookup_insert_eq. pose proof (Hnn _batchId).
           split; [lia|eauto].
        -- rewrite lookup_insert_ne by congruence. rewrite Hdel. lia.
      * rewrite getZ_insert_ne by exact Hne.
        rewrite lookup_insert_ne by congruence. apply Hdel.
    + intros b i. rewrite Hcnt.
      destruct (decide (_batchId = b)) as [<-|Hne].
      * rewrite getZ_insert_eq.
        destruct (decide (getZ (submissionsCount s) _batchId = i)) as [<-|Hi].
        -- rewrite lookup_insert_eq. pose proof (Hnn _batchId).
           split; [lia|eauto].
        -- rewrite lookup_insert_ne by congruence. rewrite Hflg. lia.
      * rewrite getZ_insert_ne by exact Hne.
        rewrite lookup_insert_ne by congruence. apply Hflg.
Qed.

Lemma transact_wf tx s : wf s -> wf (transact tx s).
Proof.
  intros Hwf. destruct (transact_cases this keccak256_encode checkSignatures tx s) as [->|Hrun];
    [exact Hwf|]. eapply exec_wf; eassumption.
Qed.

Lemma run_wf txs s : wf s -> wf (run txs s).
Proof.
  revert s. induction txs as [|tx txs IH]; intros s Hwf; [exact Hwf|].
  apply (IH (transact tx s)). apply transact_wf. exact Hwf.
Qed.

Lemma reachable_wf s : reachable s -> wf s.
Proof. intros (env & txs & ->). apply run_wf, deploy_wf. Qed.

(** X1.  In every storage reached from the constructor the two per-batch
    counters, [submissionsInBatch] and [submissionsCount], agree, and neither
    is negative. *)
Theorem submission_counters_agree :
  forall (s : State) (b : uint256),
    reachable s ->
    getZ (submissionsInBatch s) b = getZ (submissionsCount s) b
    /\ 0 <= getZ (submissionsCount s) b.
Proof.
  intros s b Hreach. apply reachable_wf in Hreach.
  split; [apply (wf_counters s Hreach)|apply (wf_count_nonneg s Hreach)].
Qed.

(** X2.  A batch id that was never allocated (zero, negative, or above
    [currentBatchId]) is not open and holds no submission, in every storage
    reached from the constructor. *)
Theorem unallocated_batch_closed_and_empty :
  forall (s : State) (b : uint256),
    reachable s ->
    b <= 0 \/ currentBatchId s < b ->
    getB (isBatchOpen s) b = false
    /\ getZ (submissionsCount s) b = 0
    /\ getZ (submissionsInBatch s) b = 0.
Proof.
  intros s b Hreach Hb. apply reachable_wf in Hreach.
  destruct (wf_unopened s Hreach b Hb) as [Hopen Hzero].
  split; [exact Hopen|]. split; [exact Hzero|].
  rewrite (wf_counters s Hreach). exact Hzero.
Qed.

(** X3.  The stored handles of a batch are gapless: in every storage reached
    from the constructor, a delta handle and a flag handle are stored at
    [(b, i)] exactly when [0 <= i < submissionsCount[b]]. *)
Theorem submissions_stored_gapless :
  forall (s : State) (b i : uint256),
    reachable s ->
    (is_Some (encryptedReputationUpdates s !! (b, i))
     <-> 0 <= i < getZ (submissionsCount s) b)
    /\ (is_Some (encryptedIsMalicious s !! (b, i))
        <-> 0 <= i < getZ (submissionsCount s) b).
Proof.
  intros s b i Hreach. apply reachable_wf in Hreach.
  split; [apply (wf_deltas s Hreach)|apply (wf_flags s Hreach)].
Qed.

(** X4.  The cooldown window is never zero: the constructor sets 60 and
    [setCooldownSeconds] refuses zero. *)
Theorem cooldown_never_zero :
  forall s : State, reachable s -> cooldownSeconds s <> 0.
Proof. intros s Hreach. apply (wf_cooldown s (reachable_wf s Hreach)). Qed.

(** *** Stored submissions are never overwritten *)

Lemma transact_keeps_stored tx s k :
  wf s ->
  (forall v, encryptedReputationUpdates s !! k = Some v ->
             encryptedReputationUpdates (transact tx s) !! k = Some v)
  /\ (forall v, encryptedIsMalicious s !! k = Some v ->
                encryptedIsMalicious (transact tx s) !! k = Some v).
Proof.
  intros Hwf. destruct k as [b i].
  destruct (transact_cases this keccak256_encode checkSignatures tx s) as [->|Hrun];
    [split; intros v Hv; exact Hv|].
  destruct tx as [env c]. simpl in Hrun.
  remember (transact (env, c) s) as s' eqn:Hs'. clear Hs'.
  destruct Hwf as [Hcur Hcd Hcnt Hnn Hun Hdel Hflg].
  destruct c; exec_inv Hrun; simpl; try (split; intros v Hv; exact Hv).
  split; intros v Hv.
  - rewrite lookup_insert_ne; [exact Hv|].
    intros Heq. inversion Heq; subst.
    assert (Hsome : is_Some (encryptedReputationUpdates s
                               !! (b, getZ (submissionsInBatch s) b))) by eauto.
    apply Hdel in Hsome. rewrite Hcnt in Hsome. lia.
  - rewrite lookup_insert_ne; [exact Hv|].
    intros Heq. inversion Heq; subst.
    assert (Hsome : is_Some (encryptedIsMalicious s
                               !! (b, getZ (submissionsInBatch s) b))) by eauto.
    apply Hflg in Hsome. rewrite Hcnt in Hsome. lia.
Qed.

(** X5.  Submissions are append-only: a handle stored in a storage reached
    from the constructor is still stored, unchanged, after any further
    transactions. *)
Theorem stored_submission_never_changes :
  forall (s : State) (txs : list (Env * Call)) (b i : uint256) (v : bytes32),
    reachable s ->
    (encryptedReputationUpdates s !! (b, i) = Some v ->
     encryptedReputationUpdates (run txs s) !! (b, i) = Some v)
    /\ (encryptedIsMalicious s !! (b, i) = Some v ->
        encryptedIsMalicious (run txs s) !! (b, i) = Some v).
Proof.
  intros s txs b i v Hreach. apply reachable_wf in Hreach.
  revert s Hreach. induction txs as [|tx txs IH]; intros s Hwf; [split; auto|].
  rewrite (run_cons this keccak256_encode checkSignatures).
  destruct (IH (transact tx s) (transact_wf tx s Hwf)) as [IHd IHf].
  destruct (transact_keeps_stored tx s (b, i) Hwf) as [Hd Hf].
  split; intros Hv; [apply IHd, Hd, Hv|apply IHf, Hf, Hv].
Qed.

(** *** The life of a batch flag *)

Lemma transact_batch_flags tx s :
  currentBatchId s <= currentBatchId (transact tx s)
  /\ (forall b, b < currentBatchId s ->
                getB (isBatchOpen (transact tx s)) b = getB (isBatchOpen s) b)
  /\ (forall b, b <= currentBatchId s -> getB (isBatchOpen s) b = false ->
                getB (isBatchOpen (transact tx s)) b = false).
Proof.
  destruct (transact_cases this keccak256_encode checkSignatures tx s) as [->|Hrun];
    [split; [lia|split; auto]|].
  destruct tx as [env c]. simpl in Hrun.
  remember (transact (env, c) s) as s' eqn:Hs'. clear Hs'.
  destruct c; exec_inv Hrun; simpl; try solve [split; [lia|split; auto]].
  - (* openBatch *)
    split; [lia|]. split; intros b Hb; [|intros Hclosed];
      rewrite getB_insert_ne by lia; auto.
  - (* closeBatch *)
    split; [lia|]. split; [intros b Hb|intros b Hb Hclosed].
    + rewrite getB_insert_ne by lia. reflexivity.
    + destruct (decide (currentBatchId s = b)) as [<-|Hne].
      * apply getB_insert_eq.
      * rewrite getB_insert_ne by exact Hne. exact Hclosed.
Qed.

(** X6.  Only the most recent batch can be closed: once a later batch was
    opened, the open flag of an earlier batch is changed by no transaction,
    so an earlier batch left open stays open for good. *)
Theorem earlier_batch_flag_frozen :
  forall (s : State) (b : uint256) (txs : list (Env * Call)),
    b < currentBatchId s ->
    getB (isBatchOpen (run txs s)) b = getB (isBatchOpen s) b.
Proof.
  intros s b txs. revert s. induction txs as [|tx txs IH]; intros s Hb; [reflexivity|].
  rewrite (run_cons this keccak256_encode checkSignatures).
  destruct (transact_batch_flags tx s) as (Hmono & Hfrozen & _).
  rewrite IH by lia. apply Hfrozen. exact Hb.
Qed.

Lemma submit_needs_open_batch env b ctA ctB s :
  getB (isBatchOpen s) b = false ->
  exists e, submitReputationUpdate env b ctA ctB s = Revert e.
Proof.
  intros Hclosed.
  destruct (submitReputationUpdate env b ctA ctB s) as [[[] s']|e] eqn:Hrun; [|eauto].
  exfalso. tx_run. tx_cases.
  match goal with H : negb (_ && getB _ _) = false |- _ =>
    rewrite Hclosed, andb_false_r in H; discriminate H end.
Qed.

(** X7.  A closed batch never reopens: a batch id at or below
    [currentBatchId] whose open flag is off keeps it off through any
    transactions, and every submission to it reverts. *)
Theorem closed_batch_never_reopens :
  forall (s : State) (b : uint256) (txs : list (Env * Call)),
    b <= currentBatchId s ->
    getB (isBatchOpen s) b = false ->
    getB (isBatchOpen (run txs s)) b = false
    /\ forall env ctA ctB,
         exists e, submitReputationUpdate env b ctA ctB (run txs s) = Revert e.
Proof.
  intros s b txs Hb Hclosed.
  assert (Hstill : getB (isBatchOpen (run txs s)) b = false).
  { revert s Hb Hclosed. induction txs as [|tx txs IH]; intros s Hb Hclosed; [exact Hclosed|].
    rewrite (run_cons this keccak256_encode checkSignatures).
    destruct (transact_batch_flags tx s) as (Hmono & _ & Hkeep).
    apply IH; [lia|]. apply Hkeep; assumption. }
  split; [exact Hstill|].
  intros env ctA ctB. apply submit_needs_open_batch. exact Hstill.
Qed.

(** *** Roles and the pause flag *)

(** X8.  Every call guarded by [onlyOwner] (all but
    [submitReputationUpdate] and [myCallback]) reverts with [NotOwner] for a
    sender who is not the owner, before any other check. *)
Theorem owner_only_calls_reject_others :
  forall (env : Env) (c : Call) (s : State),
    owner_only c = true ->
    msg_sender env <> owner s ->
    exec env c s = Revert NotOwner.
Proof.
  intros env c s Hc Hne.
  apply Z.eqb_neq in Hne.
  destruct c; try discriminate Hc; tx_run; rewrite Hne; reflexivity.
Qed.

(** X9.  While the contract is paused, [pause], [openBatch], [closeBatch],
    [submitReputationUpdate] and [requestBatchDecryption] all revert: with
    the role error ([NotProvider] for a submission by a non-provider,
    [NotOwner] for the other four sent by a non-owner) when the role check
    fails, and with [Paused] when it passes. *)
Theorem paused_blocks_gated_calls :
  forall (env : Env) (c : Call) (s : State),
    paused s = true ->
    pause_gated c = true ->
    exec env c s
    = Revert
        (match c with
         | SubmitReputationUpdate _ _ _ =>
             if getB (isProvider s) (msg_sender env) then Paused else NotProvider
         | _ => if msg_sender env =? owner s then Paused else NotOwner
         end).
Proof.
  intros env c s Hp Hc.
  destruct c; try discriminate Hc; tx_run;
    try (destruct (msg_sender env =? owner s); simpl;
         [rewrite Hp; reflexivity|reflexivity]).
  destruct (getB (isProvider s) (msg_sender env)); simpl;
    [rewrite Hp; reflexivity|reflexivity].
Qed.

(** X10.  The owner changes only through a [transferOwnership] sent by the
    current owner, and then becomes the identity that call names. *)
Theorem owner_changes_only_by_transfer :
  forall (tx : Env * Call) (s : State),
    owner (transact tx s) <> owner s ->
    exists newOwner,
      snd tx = TransferOwnership newOwner
      /\ msg_sender (fst tx) = owner s
      /\ owner (transact tx s) = newOwner.
Proof.
  intros [env c] s Hchg.
  destruct (transact_cases this keccak256_encode checkSignatures (env, c) s) as [Heq|Hrun];
    [rewrite Heq in Hchg; contradiction|].
  simpl in Hrun.
  remember (transact (env, c) s) as s' eqn:Hs'. clear Hs'.
  destruct c; exec_inv Hrun; simpl in *; try contradiction.
  exists newOwner. repeat split.
  match goal with H : negb (_ =? _) = false |- _ =>
    apply negb_false_iff, Z.eqb_eq in H; exact H end.
Qed.

(** X11.  The provider set changes only through [addProvider] or
    [removeProvider] sent by the owner, and then only at the named
    identity. *)
Theorem providers_change_only_by_owner :
  forall (tx : Env * Call) (s : State) (a : address),
    getB (isProvider (transact tx s)) a <> getB (isProvider s) a ->
    msg_sender (fst tx) = owner s
    /\ (snd tx = AddProvider a \/ snd tx = RemoveProvider a).
Proof.
  intros [env c] s a Hchg.
  destruct (transact_cases this keccak256_encode checkSignatures (env, c) s) as [Heq|Hrun];
    [rewrite Heq in Hchg; contradiction|].
  simpl in Hrun.
  remember (transact (env, c) s) as s' eqn:Hs'. clear Hs'.
  destruct c; exec_inv Hrun; simpl in *; try contradiction;
    match goal with H : negb (_ =? _) = false |- _ =>
      apply negb_false_iff, Z.eqb_eq in H end;
    (split; [assumption|]);
    destruct (decide (provider = a)) as [->|Hne]; auto;
    rewrite getB_insert_ne in Hchg by exact Hne; contradiction.
Qed.

(** X12.  [addProvider] is idempotent: sent by the owner it succeeds, the
    identity is a provider afterwards, and a second call succeeds without
    changing the storage or emitting an event. *)
Theorem addProvider_idempotent :
  forall (env : Env) (p : address) (s : State),
    msg_sender env = owner s ->
    let s1 := commit (addProvider env p) s in
    getB (isProvider s1) p = true
    /\ owner s1 = owner s
    /\ addProvider env p s1 = Ok (tt, s1).
Proof.
  intros env p s Hown. unfold commit. tx_run. rewrite Hown, Z.eqb_refl. simpl.
  destruct (getB (isProvider s) p) eqn:Hp; simpl.
  - rewrite Z.eqb_refl. simpl. rewrite Hp. simpl. auto.
  - rewrite Z.eqb_refl. simpl. rewrite getB_insert_eq. simpl.
    split; [reflexivity|]. split; reflexivity.
Qed.

(** X13.  [removeProvider] is idempotent: sent by the owner it succeeds, a
    second call succeeds without changing the storage or emitting an event,
    and the removed identity's submissions revert with [NotProvider]. *)
Theorem removeProvider_idempotent :
  forall (env : Env) (p : address) (s : State),
    msg_sender env = owner s ->
    let s1 := commit (removeProvider env p) s in
    getB (isProvider s1) p = false
    /\ removeProvider env p s1 = Ok (tt, s1)
    /\ forall env' b ctA ctB,
         msg_sender env' = p ->
         submitReputationUpdate env' b ctA ctB s1 = Revert NotProvider.
Proof.
  intros env p s Hown. unfold commit. tx_run. rewrite Hown, Z.eqb_refl. simpl.
  destruct (getB (isProvider s) p) eqn:Hp; simpl.
  - rewrite Z.eqb_refl. simpl. rewrite getB_insert_eq. simpl.
    split; [reflexivity|]. split; [reflexivity|].
    intros env' b ctA ctB ->. rewrite getB_insert_eq. reflexivity.
  - rewrite Z.eqb_refl. simpl. rewrite Hp. simpl.
    split; [reflexivity|]. split; [reflexivity|].
    intros env' b ctA ctB ->. rewrite Hp. reflexivity.
Qed.

(** X14.  An owner's [pause] on an unpaused contract followed by [unpause]
    succeeds twice and restores the storage, the log gaining
    [ContractPaused] and [ContractUnpaused]. *)
Theorem pause_then_unpause_restores :
  forall (env : Env) (s : State),
    msg_sender env = owner s ->
    paused s = false ->
    exists s1,
      pause env s = Ok (tt, s1)
      /\ paused s1 = true
      /\ unpause env s1
         = Ok (tt, set_events (events s ++ [ContractPaused (msg_sender env);
                                            ContractUnpaused (msg_sender env)]) s).
Proof.
  intros env s Hown Hp. eexists. tx_run. rewrite Hown, Z.eqb_refl. simpl.
  rewrite Hp. simpl. split; [reflexivity|]. split; [reflexivity|].
  rewrite Z.eqb_refl. simpl. unfold set_events, set_paused. simpl.
  rewrite Hp, <- app_assoc. destruct s; reflexivity.
Qed.

(** *** The callback and the pause flag *)

Lemma collect_cts_ext s1 s2 :
  encryptedReputationUpdates s1 = encryptedReputationUpdates s2 ->
  encryptedIsMalicious s1 = encryptedIsMalicious s2 ->
  forall b n iters i cts,
    collect_cts s1 b n iters i cts = collect_cts s2 b n iters i cts.
Proof.
  intros Hd Hf b n iters.
  induction iters as [|iters IH]; intros i cts; simpl; [reflexivity|].
  rewrite Hd, Hf. apply IH.
Qed.

Lemma decode_loop_any_state :
  forall cleartexts iters i offset reps flags s1 s2,
    decode_loop cleartexts iters i offset reps flags s1
    = match decode_loop cleartexts iters i offset reps flags s2 with
      | Ok (out, _) => Ok (out, s1)
      | Revert e => Revert e
      end.
Proof.
  intros cleartexts iters.
  induction iters as [|iters IH]; intros i offset reps flags s1 s2; simpl.
  - reflexivity.
  - unfold abi_decode_uint32, abi_decode_bool, slice_from, abi_word. tx_monad.
    tx_cases; try reflexivity; apply IH.
Qed.

(** X15.  The callback carries no [whenNotPaused] modifier: its outcome is
    the same whether the contract is paused or not, so a pending decryption
    can complete while everything else is paused. *)
Theorem callback_not_gated_by_pause :
  forall (r : uint256) (cleartexts proof : bytes) (s : State) (p : bool),
    myCallback r cleartexts proof (set_paused p s)
    = match myCallback r cleartexts proof s with
      | Ok (u, s') => Ok (u, set_paused p s')
      | Revert e => Revert e
      end.
Proof.
  intros r cleartexts proof s p.
  rewrite !(myCallback_eq this keccak256_encode checkSignatures). simpl.
  assert (Hcts : forall b, current_cts (set_paused p s) b = current_cts s b).
  { intros b. unfold current_cts. simpl. apply collect_cts_ext; reflexivity. }
  rewrite Hcts.
  destruct (processed _); [reflexivity|].
  destruct (negb (2 * _ <=? UINT256_MAX)); [reflexivity|].
  destruct (negb (_ =? _)); [reflexivity|].
  destruct (negb (checkSignatures r cleartexts proof)); [reflexivity|].
  rewrite (decode_loop_any_state _ _ _ _ _ _ (set_paused p s) s).
  destruct (decode_loop _ _ _ _ _ _ s) as [[out s1]|e] eqn:Hdec; [|reflexivity].
  apply decode_loop_state in Hdec. subst s1. reflexivity.
Qed.

(** *** Decryption requests *)

(** X16.  [requestBatchDecryption] is accepted exactly when the sender is
    the owner, the contract is not paused, the sender's submission cooldown
    has elapsed, and the batch holds at least one submission (whose doubled
    count fits a [uint256]).  The batch's open flag plays no part: a closed
    batch with submissions can be decrypted. *)
Theorem request_accepted_iff :
  forall (env : Env) (b r : uint256) (s : State),
    (exists s', requestBatchDecryption env b r s = Ok (tt, s'))
    <-> (msg_sender env = owner s
         /\ paused s = false
         /\ getZ (lastSubmissionTime s) (msg_sender env) + cooldownSeconds s <= UINT256_MAX
         /\ getZ (lastSubmissionTime s) (msg_sender env) + cooldownSeconds s
              <= block_timestamp env
         /\ getZ (submissionsCount s) b <> 0
         /\ 2 * getZ (submissionsCount s) b <= UINT256_MAX).
Proof.
  intros env b r s. split.
  - intros [s' Hrun]. tx_run. tx_cases. clear Hrun.
    repeat match goal with
           | H : negb (_ =? _) = false |- _ => apply negb_false_iff, Z.eqb_eq in H
           | H : (_ <=? _) = true |- _ => apply Z.leb_le in H
           | H : (_ <? _) = false |- _ => apply Z.ltb_ge in H
           | H : (_ =? 0) = false |- _ => apply Z.eqb_neq in H
           end.
    repeat split; assumption.
  - intros (Hown & Hp & Hfit & Hcool & Hne & Hlen). tx_run.
    rewrite Hown, Z.eqb_refl. simpl. rewrite Hp. simpl. rewrite <- Hown.
    replace (_ + cooldownSeconds s <=? UINT256_MAX) with true
      by (symmetry; apply Z.leb_le; exact Hfit).
    simpl.
    replace (block_timestamp env <? _) with false by (symmetry; apply Z.ltb_ge; exact Hcool).
    simpl.
    replace (getZ (submissionsCount s) b =? 0) with false
      by (symmetry; apply Z.eqb_neq; exact Hne).
    simpl.
    replace (2 * getZ (submissionsCount s) b <=? UINT256_MAX) with true
      by (symmetry; apply Z.leb_le; exact Hlen).
    simpl. eauto.
Qed.

(** *** The submission cooldown *)

Lemma transact_keeps_last_submission a tx s :
  submits_as a tx = false ->
  getZ (lastSubmissionTime (transact tx s)) a = getZ (lastSubmissionTime s) a.
Proof.
  intros Hother.
  destruct (transact_cases this keccak256_encode checkSignatures tx s) as [->|Hrun];
    [reflexivity|].
  destruct tx as [env c]. unfold submits_as in Hother. simpl in Hrun, Hother.
  remember (transact (env, c) s) as s' eqn:Hs'. clear Hs'.
  destruct c; exec_inv Hrun; simpl; try reflexivity.
  apply Z.eqb_neq in Hother. apply getZ_insert_ne. exact Hother.
Qed.

Lemma run_keeps_last_submission a txs s :
  Forall (fun tx => submits_as a tx = false) txs ->
  getZ (lastSubmissionTime (run txs s)) a = getZ (lastSubmissionTime s) a.
Proof.
  intros Hq. revert s. induction Hq as [|tx txs Htx _ IH]; intros s; [reflexivity|].
  rewrite (run_cons this keccak256_encode checkSignatures), IH.
  apply transact_keeps_last_submission. exact Htx.
Qed.

(** X17.  After an accepted submission at time [t], and through any
    transactions among which the sender submits nothing else, the sender's
    recorded last-submission time stays [t], and every submission it sends at
    a time before [t + cooldownSeconds] (the window then in force) reverts,
    whatever batch it names: with [NotProvider] if it has lost the provider
    role, else with [Paused] if the contract is paused, else with
    [CooldownActive] ([Panic] if [t + cooldownSeconds] overflows). *)
Theorem resubmission_within_cooldown_rejected :
  forall (env : Env) (b ctA ctB : Z) (s s' : State) (txs : list (Env * Call))
         (env' : Env) (b' ctA' ctB' : Z),
    submitReputationUpdate env b ctA ctB s = Ok (tt, s') ->
    Forall (fun tx => submits_as (msg_sender env) tx = false) txs ->
    msg_sender env' = msg_sender env ->
    block_timestamp env' < block_timestamp env + cooldownSeconds (run txs s') ->
    getZ (lastSubmissionTime (run txs s')) (msg_sender env) = block_timestamp env
    /\ submitReputationUpdate env' b' ctA' ctB' (run txs s')
       = Revert
           (if negb (getB (isProvider (run txs s')) (msg_sender env)) then NotProvider
            else if paused (run txs s') then Paused
            else if block_timestamp env + cooldownSeconds (run txs s') <=? UINT256_MAX
                 then CooldownActive
                 else Panic).
Proof.
  intros env b ctA ctB s s' txs env' b' ctA' ctB' Hrun Hquiet Hsender Hsoon.
  assert (Hlast : getZ (lastSubmissionTime (run txs s')) (msg_sender env)
                  = block_timestamp env).
  { rewrite (run_keeps_last_submission _ _ _ Hquiet).
    unfold submitReputationUpdate in Hrun. tx_guards. tx_monad. simpl in Hrun.
    tx_cases. inversion Hrun; subst; simpl. apply getZ_insert_eq. }
  split; [exact Hlast|].
  remember (run txs s') as s2 eqn:Hs2. clear Hs2 Hrun Hquiet.
  unfold submitReputationUpdate. tx_guards. tx_monad. simpl.
  rewrite Hsender.
  destruct (getB (isProvider s2) (msg_sender env)); simpl; [|reflexivity].
  destruct (paused s2); simpl; [reflexivity|].
  rewrite Hlast.
  destruct (block_timestamp env + cooldownSeconds s2 <=? UINT256_MAX); simpl;
    [|reflexivity].
  replace (block_timestamp env' <? _) with true by (symmetry; apply Z.ltb_lt; exact Hsoon).
  reflexivity.
Qed.

(** *** Decryption contexts *)

Lemma transact_context_binding r tx s c :
  issues r (snd tx) = false ->
  decryptionContexts s !! r = Some c ->
  exists p,
    decryptionContexts (transact tx s) !! r = Some (mkContext (batchId c) (stateHash c) p)
    /\ (processed c = true -> p = true).
Proof.
  intros Hfresh Hc.
  destruct (transact_cases this keccak256_encode checkSignatures tx s) as [->|Hrun].
  { exists (processed c). destruct c; auto. }
  apply (exec_effect this keccak256_encode checkSignatures) in Hrun
    as [_ [->|[(b & k & h & Hcall & ->)|(k & ct & pf & Hcall & _ & ->)]]].
  - exists (processed c). destruct c; auto.
  - rewrite Hcall in Hfresh. simpl in Hfresh. apply Z.eqb_neq in Hfresh.
    rewrite lookup_insert_ne by exact Hfresh.
    exists (processed c). destruct c; auto.
  - destruct (decide (k = r)) as [->|Hne].
    + rewrite lookup_insert_eq. unfold getCtx. rewrite Hc. simpl. eauto.
    + rewrite lookup_insert_ne by exact Hne.
      exists (processed c). destruct c; auto.
Qed.

(** X18.  A stored decryption context is bound for good: as long as the
    oracle hands its request id to no later request, its batch id and frozen
    digest never change, and a processed context stays processed. *)
Theorem context_binding_is_permanent :
  forall (s : State) (r : uint256) (c : DecryptionContext) (txs : list (Env * Call)),
    decryptionContexts s !! r = Some c ->
    Forall (fun tx => issues r (snd tx) = false) txs ->
    exists p,
      decryptionContexts (run txs s) !! r = Some (mkContext (batchId c) (stateHash c) p)
      /\ (processed c = true -> p = true).
Proof.
  intros s r c txs Hc Hfresh. revert s c Hc.
  induction Hfresh as [|tx txs Htx _ IH]; intros s c Hc.
  - exists (processed c). destruct c; auto.
  - rewrite (run_cons this keccak256_encode checkSignatures).
    destruct (transact_context_binding r tx s c Htx Hc) as (p & Hp & Hmono).
    destruct (IH _ _ Hp) as (q & Hq & Hmono'). simpl in *.
    exists q. split; [exact Hq|]. auto.
Qed.

(** *** The layout of the hashed handle array *)

Lemma collect_cts_lookup :
  forall s b n iters i cts (j : nat),
    0 <= i -> i + Z.of_nat iters <= n ->
    length cts = Z.to_nat (2 * n) ->
    collect_cts s b n iters i cts !! j
    = if decide (Z.to_nat i <= j < Z.to_nat i + iters)%nat
      then Some (getZ (encryptedReputationUpdates s) (b, Z.of_nat j))
      else if decide (Z.to_nat (i + n) <= j < Z.to_nat (i + n) + iters)%nat
           then Some (getZ (encryptedIsMalicious s) (b, Z.of_nat j - n))
           else cts !! j.
Proof.
  intros s b n iters.
  induction iters as [|iters IH]; intros i cts j Hi Hn Hlen; simpl.
  - repeat case_decide; try lia; reflexivity.
  - rewrite IH; [|lia|lia|rewrite !length_insert; exact Hlen].
    repeat case_decide; try lia; try reflexivity.
    + (* j is the delta slot written by this iteration *)
      assert (j = Z.to_nat i) as -> by lia.
      rewrite list_lookup_insert_ne by lia.
      rewrite list_lookup_insert_eq by lia.
      rewrite Z2Nat.id by lia. reflexivity.
    + (* j is the flag slot written by this iteration *)
      assert (j = Z.to_nat (i + n)) as -> by lia.
      rewrite list_lookup_insert_eq by (rewrite length_insert; lia).
      rewrite Z2Nat.id by lia. do 2 f_equal. f_equal. lia.
    + rewrite !list_lookup_insert_ne by lia. reflexivity.
Qed.

(** X19.  The array hashed for batch [b] holds the delta handles of
    submissions 0, 1, ... first and the flag handles after them: entry [j] is
    the delta handle of submission [j], entry [n + j] its flag handle, and
    the length is [2 * n], for [n = submissionsCount[b]]. *)
Theorem current_cts_layout :
  forall (s : State) (b j : uint256),
    0 <= j < getZ (submissionsCount s) b ->
    current_cts s b !! Z.to_nat j
      = Some (getZ (encryptedReputationUpdates s) (b, j))
    /\ current_cts s b !! Z.to_nat (getZ (submissionsCount s) b + j)
       = Some (getZ (encryptedIsMalicious s) (b, j))
    /\ length (current_cts s b) = Z.to_nat (2 * getZ (submissionsCount s) b).
Proof.
  intros s b j Hj. unfold current_cts.
  split; [|split].
  - rewrite collect_cts_lookup; [|lia|lia|apply length_replicate].
    rewrite decide_True by lia. rewrite Z2Nat.id by lia. reflexivity.
  - rewrite collect_cts_lookup; [|lia|lia|apply length_replicate].
    rewrite decide_False by lia. rewrite decide_True by lia.
    rewrite Z2Nat.id by lia. do 2 f_equal. f_equal. lia.
  - rewrite collect_cts_length. apply length_replicate.
Qed.

(** *** What the callback publishes *)

Lemma decode_loop_lengths :
  forall cleartexts iters i offset reps flags s out s',
    decode_loop cleartexts iters i offset reps flags s = Ok (out, s') ->
    length (fst out) = length reps /\ length (snd out) = length flags.
Proof.
  intros cleartexts iters.
  induction iters as [|iters IH]; intros i offset reps flags s out s' Hrun; simpl in Hrun.
  - tx_monad. inversion Hrun; subst; simpl. split; reflexivity.
  - unfold abi_decode_uint32, abi_decode_bool, slice_from, abi_word in Hrun.
    tx_monad. tx_cases;
      (apply IH in Hrun as [Hd Hf]; rewrite length_insert in Hd;
       rewrite length_insert in Hf; split; assumption).
Qed.

(** X20.  A successful callback publishes exactly one delta and one flag per
    submission of the batch, in a [DecryptionCompleted] event that is the
    last of the log. *)
Theorem callback_publishes_one_value_per_submission :
  forall (r : uint256) (cleartexts proof : bytes) (s s' : State),
    myCallback r cleartexts proof s = Ok (tt, s') ->
    let c := getCtx (decryptionContexts s) r in
    exists deltas flags,
      last (events s') = Some (DecryptionCompleted r (batchId c) deltas flags)
      /\ length deltas = Z.to_nat (getZ (submissionsCount s) (batchId c))
      /\ length flags = Z.to_nat (getZ (submissionsCount s) (batchId c)).
Proof.
  intros r cleartexts proof s s' Hrun c. subst c.
  rewrite (myCallback_eq this keccak256_encode checkSignatures) in Hrun.
  simpl in Hrun. tx_cases.
  destruct (decode_loop _ _ _ _ _ _ _) as [[out s1]|e] eqn:Hdec; [|discriminate].
  inversion Hrun; subst; simpl. rewrite last_snoc.
  apply decode_loop_lengths in Hdec as [Hd Hf].
  rewrite length_replicate in Hd. rewrite length_replicate in Hf.
  exists (fst out), (snd out). auto.
Qed.

(** *** How long the cleartext buffer must be *)

(** One iteration of the decode loop that does not revert. *)
Lemma decode_loop_S :
  forall cleartexts iters i offset reps flags s out s',
    decode_loop cleartexts (S iters) i offset reps flags s = Ok (out, s') ->
    (32 <= length cleartexts)%nat
    /\ be_word (take 32 cleartexts) <= UINT32_MAX
    /\ offset + 4 <= Z.of_nat (length cleartexts)
    /\ (32 <= length (drop (Z.to_nat (offset + 4)) cleartexts))%nat
    /\ exists flag : bool,
         be_word (take 32 (drop (Z.to_nat (offset + 4)) cleartexts))
           = (if flag then 1 else 0)
         /\ decode_loop cleartexts iters (i + 1) (offset + 4 + 1)
              (<[Z.to_nat i := be_word (take 32 cleartexts)]> reps)
              (<[Z.to_nat i := flag]> flags) s
            = Ok (out, s').
Proof.
  intros cleartexts iters i offset reps flags s out s' Hrun.
  cbn [decode_loop] in Hrun.
  unfold abi_decode_uint32, abi_decode_bool, slice_from, abi_word in Hrun.
  tx_monad.
  destruct (32 <=? length cleartexts)%nat eqn:E1; [|discriminate Hrun].
  cbv beta match in Hrun.
  destruct (be_word (take 32 cleartexts) <=? UINT32_MAX) eqn:E2; [|discriminate Hrun].
  destruct (offset + 4 <=? UINT256_MAX) eqn:E3; [|discriminate Hrun].
  destruct (offset + 4 <=? Z.of_nat (length cleartexts)) eqn:E4; [|discriminate Hrun].
  destruct (32 <=? length (drop (Z.to_nat (offset + 4)) cleartexts))%nat eqn:E5;
    [|discriminate Hrun].
  cbv beta match in Hrun.
  apply Nat.leb_le in E1, E5. apply Z.leb_le in E2, E4.
  do 4 (split; [assumption|]).
  destruct (be_word (take 32 (drop (Z.to_nat (offset + 4)) cleartexts)) =? 0) eqn:E6.
  - apply Z.eqb_eq in E6.
    destruct (offset + 4 + 1 <=? UINT256_MAX); [|discriminate Hrun].
    exists false. split; assumption.
  - destruct (be_word (take 32 (drop (Z.to_nat (offset + 4)) cleartexts)) =? 1) eqn:E7;
      [|discriminate Hrun].
    apply Z.eqb_eq in E7.
    destruct (offset + 4 + 1 <=? UINT256_MAX); [|discriminate Hrun].
    exists true. split; assumption.
Qed.

Lemma decode_loop_needs_bytes :
  forall cleartexts iters i offset reps flags s out s',
    decode_loop cleartexts iters i offset reps flags s = Ok (out, s') ->
    0 <= offset ->
    (0 < iters)%nat ->
    offset + 5 * Z.of_nat iters + 31 <= Z.of_nat (length cleartexts).
Proof.
  intros cleartexts iters.
  induction iters as [|iters IH]; intros i offset reps flags s out s' Hrun Hoff Hpos;
    [lia|].
  apply decode_loop_S in Hrun as (_ & _ & Hslice & Hword & flag & _ & Hrest).
  rewrite length_drop in Hword.
  destruct iters as [|iters']; [lia|].
  apply IH in Hrest; lia.
Qed.

(** X21.  The callback never accepts a buffer too short for its reads: when
    it succeeds on a batch of [n >= 1] submissions, the cleartext buffer
    holds at least [5 * n + 31] bytes. *)
Theorem callback_rejects_short_buffer :
  forall (r : uint256) (cleartexts proof : bytes) (s s' : State),
    myCallback r cleartexts proof s = Ok (tt, s') ->
    let n := getZ (submissionsCount s) (batchId (getCtx (decryptionContexts s) r)) in
    1 <= n ->
    5 * n + 31 <= Z.of_nat (length cleartexts).
Proof.
  intros r cleartexts proof s s' Hrun n Hn. subst n.
  rewrite (myCallback_eq this keccak256_encode checkSignatures) in Hrun.
  simpl in Hrun. tx_cases.
  destruct (decode_loop _ _ _ _ _ _ _) as [[out s1]|e] eqn:Hdec; [|discriminate].
  apply decode_loop_needs_bytes in Hdec; lia.
Qed.

(** *** Big-endian words *)

Lemma be_word_fold (l : bytes) (acc : Z) :
  fold_left (fun a b => a * 256 + Z.of_N (Byte.to_N b)) l acc
  = acc * 256 ^ Z.of_nat (length l) + be_word l.
Proof.
  revert acc. induction l as [|b l IH]; intros acc.
  - unfold be_word. simpl. lia.
  - unfold be_word. cbn [fold_left length].
    rewrite IH, (IH (0 * 256 + _)).
    rewrite Nat2Z.inj_succ, Z.pow_succ_r by lia. ring.
Qed.

Lemma be_word_app (l1 l2 : bytes) :
  be_word (l1 ++ l2) = be_word l1 * 256 ^ Z.of_nat (length l2) + be_word l2.
Proof. unfold be_word at 1. rewrite fold_left_app. apply be_word_fold. Qed.

Lemma be_word_nonneg (l : bytes) : 0 <= be_word l.
Proof.
  induction l as [|b l IH] using rev_ind; [unfold be_word; simpl; lia|].
  rewrite be_word_app. unfold be_word at 2. simpl.
  pose proof (N2Z.is_nonneg (Byte.to_N b)). lia.
Qed.

(** If the word at offset 0 is a [uint32] and the word at offset 4 is a
    [bool], the word at offset 0 is zero: its four low bytes are among the
    high bytes of the other. *)
Lemma overlapping_words_force_zero (data : bytes) :
  (32 <= length data)%nat ->
  (32 <= length (drop 4 data))%nat ->
  be_word (take 32 data) <= UINT32_MAX ->
  be_word (take 32 (drop 4 data)) <= 1 ->
  be_word (take 32 data) = 0.
Proof.
  intros Hlen Hlen' Hdelta Hflag.
  assert (H1 : take 32 data = take 4 data ++ take 28 (drop 4 data))
    by (symmetry; apply (take_take_drop data 4 28)).
  assert (H2 : take 32 (drop 4 data)
               = take 28 (drop 4 data) ++ take 4 (drop 28 (drop 4 data)))
    by (symmetry; apply (take_take_drop (drop 4 data) 28 4)).
  rewrite H1 in Hdelta |- *. rewrite H2 in Hflag. clear H1 H2.
  rewrite be_word_app in Hdelta, Hflag |- *.
  assert (L28 : length (take 28 (drop 4 data)) = 28%nat)
    by (rewrite length_take; lia).
  assert (L4 : length (take 4 (drop 28 (drop 4 data))) = 4%nat)
    by (rewrite length_take, length_drop; lia).
  rewrite L28 in Hdelta |- *. rewrite L4 in Hflag.
  pose proof (be_word_nonneg (take 4 data)) as HA.
  pose proof (be_word_nonneg (take 28 (drop 4 data))) as HM.
  pose proof (be_word_nonneg (take 4 (drop 28 (drop 4 data)))) as HC.
  unfold UINT32_MAX in Hdelta.
  change (256 ^ Z.of_nat 28) with 26959946667150639794667015087019630673637144422540572481103610249216
    in *.
  change (256 ^ Z.of_nat 4) with 4294967296 in *.
  change (2 ^ 32 - 1) with 4294967295 in *.
  lia.
Qed.

(** X22.  Because the delta is read at offset 0 and the first flag at
    offset 4 of the same buffer, a callback can only succeed on a batch with
    at least one submission when the delta word is zero: every delta it
    publishes is 0. *)
Theorem callback_success_forces_zero_deltas :
  forall (r : uint256) (cleartexts proof : bytes) (s s' : State),
    myCallback r cleartexts proof s = Ok (tt, s') ->
    let c := getCtx (decryptionContexts s) r in
    1 <= getZ (submissionsCount s) (batchId c) ->
    exists flags,
      last (events s')
      = Some (DecryptionCompleted r (batchId c)
                (replicate (Z.to_nat (getZ (submissionsCount s) (batchId c))) 0) flags).
Proof.
  intros r cleartexts proof s s' Hrun c Hn. subst c.
  pose proof (myCallback_publishes_one_delta this keccak256_encode checkSignatures
                r cleartexts proof s s' Hrun) as (flags & Hlast).
  exists flags. rewrite Hlast. do 3 f_equal.
  rewrite (myCallback_eq this keccak256_encode checkSignatures) in Hrun.
  cbv zeta in Hrun. tx_cases.
  destruct (decode_loop _ _ _ _ _ _ _) as [[out s1]|e] eqn:Hdec; [|discriminate].
  destruct (Z.to_nat (getZ (submissionsCount s)
              (batchId (getCtx (decryptionContexts s) r)))) as [|k] eqn:Hk; [lia|].
  apply decode_loop_S in Hdec as (Hlen & Hdelta & _ & Hlen' & flag & Hflag & _).
  change (Z.to_nat (0 + 4)) with 4%nat in *.
  apply overlapping_words_force_zero; try assumption.
  rewrite Hflag. destruct flag; lia.
Qed.

(** *** A callback after a quiet interval *)

Lemma decode_loop_errors :
  forall cleartexts iters i offset reps flags s e,
    decode_loop cleartexts iters i offset reps flags s = Revert e ->
    e = AbiRevert \/ e = Panic.
Proof.
  intros cleartexts iters.
  induction iters as [|iters IH]; intros i offset reps flags s e Hrun; simpl in Hrun.
  - tx_monad. discriminate Hrun.
  - unfold abi_decode_uint32, abi_decode_bool, slice_from, abi_word in Hrun.
    tx_monad. tx_cases;
      first [ eapply IH; eassumption | inversion Hrun; auto ].
Qed.

Lemma collect_cts_ext_batch s1 s2 b :
  (forall i, encryptedReputationUpdates s1 !! (b, i) = encryptedReputationUpdates s2 !! (b, i)) ->
  (forall i, encryptedIsMalicious s1 !! (b, i) = encryptedIsMalicious s2 !! (b, i)) ->
  forall n iters i cts,
    collect_cts s1 b n iters i cts = collect_cts s2 b n iters i cts.
Proof.
  intros Hd Hf n iters.
  induction iters as [|iters IH]; intros i cts; simpl; [reflexivity|].
  unfold getZ. rewrite Hd, Hf. apply IH.
Qed.

Lemma transact_keeps_batch_data b tx s :
  submits_to b (snd tx) = false ->
  getZ (submissionsCount (transact tx s)) b = getZ (submissionsCount s) b
  /\ (forall i, encryptedReputationUpdates (transact tx s) !! (b, i)
                = encryptedReputationUpdates s !! (b, i))
  /\ (forall i, encryptedIsMalicious (transact tx s) !! (b, i)
                = encryptedIsMalicious s !! (b, i)).
Proof.
  intros Hother.
  destruct (transact_cases this keccak256_encode checkSignatures tx s) as [->|Hrun];
    [auto|].
  destruct tx as [env c]. simpl in Hrun, Hother.
  remember (transact (env, c) s) as s' eqn:Hs'. clear Hs'.
  destruct c; exec_inv Hrun; simpl; try solve [auto].
  apply Z.eqb_neq in Hother.
  rewrite getZ_insert_ne by exact Hother.
  split; [reflexivity|].
  split; intros i; apply lookup_insert_ne; congruence.
Qed.

Lemma run_keeps_batch_data b txs s :
  Forall (fun tx => submits_to b (snd tx) = false) txs ->
  getZ (submissionsCount (run txs s)) b = getZ (submissionsCount s) b
  /\ current_cts (run txs s) b = current_cts s b.
Proof.
  intros Hq.
  assert (Hall : getZ (submissionsCount (run txs s)) b = getZ (submissionsCount s) b
                 /\ (forall i, encryptedReputationUpdates (run txs s) !! (b, i)
                               = encryptedReputationUpdates s !! (b, i))
                 /\ (forall i, encryptedIsMalicious (run txs s) !! (b, i)
                               = encryptedIsMalicious s !! (b, i))).
  { revert s. induction Hq as [|tx txs Htx _ IH]; intros s; [auto|].
    rewrite (run_cons this keccak256_encode checkSignatures).
    destruct (IH (transact tx s)) as (Hc & Hd & Hf).
    destruct (transact_keeps_batch_data b tx s Htx) as (Hc' & Hd' & Hf').
    split; [congruence|]. split; intros i; [rewrite Hd|rewrite Hf]; auto. }
  destruct Hall as (Hc & Hd & Hf).
  split; [exact Hc|].
  unfold current_cts. rewrite Hc. apply collect_cts_ext_batch; assumption.
Qed.

Lemma requestBatchDecryption_fits env b r s s1 :
  requestBatchDecryption env b r s = Ok (tt, s1) ->
  2 * getZ (submissionsCount s) b <= UINT256_MAX.
Proof.
  intros Hrun. tx_run. tx_cases.
  match goal with H : (2 * _ <=? _) = true |- _ => apply Z.leb_le in H; exact H end.
Qed.

Lemma requestBatchDecryption_keeps_handles env b r s s1 :
  requestBatchDecryption env b r s = Ok (tt, s1) ->
  encryptedReputationUpdates s1 = encryptedReputationUpdates s
  /\ encryptedIsMalicious s1 = encryptedIsMalicious s.
Proof.
  intros Hrun. tx_run. tx_cases. inversion Hrun; subst; simpl. split; reflexivity.
Qed.

(** X23.  After an accepted request with id [r] for batch [b], and any
    transactions that neither submit to [b], nor reuse [r], nor answer it,
    the callback for [r] passes the replay and digest checks: it reverts
    with [InvalidProof] when the proof is refused, and never with
    [ReplayDetected] or [StateMismatch]. *)
Theorem callback_after_quiet_interval :
  forall (envr : Env) (b r : uint256) (s s1 : State) (txs : list (Env * Call))
         (cleartexts proof : bytes),
    requestBatchDecryption envr b r s = Ok (tt, s1) ->
    Forall (fun tx => submits_to b (snd tx) = false
                      /\ issues r (snd tx) = false /\ answers r (snd tx) = false) txs ->
    (checkSignatures r cleartexts proof = false ->
     myCallback r cleartexts proof (run txs s1) = Revert InvalidProof)
    /\ myCallback r cleartexts proof (run txs s1) <> Revert ReplayDetected
    /\ myCallback r cleartexts proof (run txs s1) <> Revert StateMismatch.
Proof.
  intros envr b r s s1 txs cleartexts proof Hreq Hquiet.
  pose proof (requestBatchDecryption_fits envr b r s s1 Hreq) as Hfit.
  pose proof (requestBatchDecryption_keeps_handles envr b r s s1 Hreq) as [Hd1 Hf1].
  apply (requestBatchDecryption_ok this keccak256_encode) in Hreq as (_ & Hcount1 & Hctx1).
  assert (Hctx : decryptionContexts (run txs s1) !! r
                 = Some (mkContext b (keccak256_encode (current_cts s b) this) false)).
  { rewrite (run_keeps_context this keccak256_encode checkSignatures r txs s1).
    - rewrite Hctx1. apply lookup_insert_eq.
    - eapply Forall_impl; [exact Hquiet|]. intros tx (_ & Hi & Ha). auto. }
  destruct (run_keeps_batch_data b txs s1) as [Hcount Hcts].
  { eapply Forall_impl; [exact Hquiet|]. intros tx (Hs & _). exact Hs. }
  assert (Hcts1 : current_cts s1 b = current_cts s b).
  { unfold current_cts. rewrite Hcount1. apply collect_cts_ext_batch.
    - intros i. rewrite Hd1. reflexivity.
    - intros i. rewrite Hf1. reflexivity. }
  rewrite (myCallback_eq this keccak256_encode checkSignatures).
  unfold getCtx. rewrite Hctx. cbv zeta. cbn [default from_option id processed batchId stateHash].
  rewrite Hcount, Hcts, Hcount1, Hcts1.
  replace (2 * getZ (submissionsCount s) b <=? UINT256_MAX) with true
    by (symmetry; apply Z.leb_le; exact Hfit).
  rewrite Z.eqb_refl. cbn [negb].
  destruct (checkSignatures r cleartexts proof); cbn [negb].
  - split; [discriminate|].
    destruct (decode_loop _ _ _ _ _ _ _) as [[out s2]|e] eqn:Hdec.
    + split; discriminate.
    + apply decode_loop_errors in Hdec as [->| ->]; split; discriminate.
  - split; [reflexivity|]. split; discriminate.
Qed.

(** *** What a successful callback leaves alone *)

(** X24.  A successful callback changes nothing but the [processed] flag of
    its own context and the event log: roles, pause flag, cooldown, batches,
    counters, stored handles and every other context are as before, and its
    own context keeps batch id and digest. *)
Theorem callback_touches_only_its_context :
  forall (r : uint256) (cleartexts proof : bytes) (s s' : State),
    myCallback r cleartexts proof s = Ok (tt, s') ->
    owner s' = owner s
    /\ isProvider s' = isProvider s
    /\ paused s' = paused s
    /\ cooldownSeconds s' = cooldownSeconds s
    /\ lastSubmissionTime s' = lastSubmissionTime s
    /\ lastDecryptionRequestTime s' = lastDecryptionRequestTime s
    /\ currentBatchId s' = currentBatchId s
    /\ isBatchOpen s' = isBatchOpen s
    /\ submissionsInBatch s' = submissionsInBatch s
    /\ submissionsCount s' = submissionsCount s
    /\ encryptedReputationUpdates s' = encryptedReputationUpdates s
    /\ encryptedIsMalicious s' = encryptedIsMalicious s
    /\ (forall k, k <> r -> decryptionContexts s' !! k = decryptionContexts s !! k)
    /\ getCtx (decryptionContexts s') r
       = mkContext (batchId (getCtx (decryptionContexts s) r))
                   (stateHash (getCtx (decryptionContexts s) r)) true.
Proof.
  intros r cleartexts proof s s' Hrun.
  apply (myCallback_ok this keccak256_encode checkSignatures) in Hrun
    as [_ (deltas & flags & ->)].
  simpl. repeat (split; [reflexivity|]). split.
  - intros k Hk. apply lookup_insert_ne. congruence.
  - apply getCtx_insert_eq.
Qed.

End MoreProperties.

(** * The contract on concrete inputs *)

(** ** Cooldown of decryption requests *)

(** C4 (the code at a failing input).  The owner, who never requested a
    decryption, submits at time 1000 and asks for the decryption of batch 1 at
    time 1030: the request reverts with [CooldownActive], its cooldown check
    reading the last submission time.  After a request accepted at time 1060,
    a second request one second later is accepted as well: the recorded
    decryption-request time is read by no check. *)
Theorem request_cooldown_reads_submission_time :
  getZ (lastDecryptionRequestTime one_submission) 1 = 0
  /\ getZ (lastSubmissionTime one_submission) 1 = 1000
  /\ sample_request (mkEnv 1 1030) 1 5 one_submission = Revert CooldownActive
  /\ getZ (lastDecryptionRequestTime one_pending) 1 = 1060
  /\ (exists s', sample_request (mkEnv 1 1061) 1 6 one_pending = Ok (tt, s')).
Proof.
  repeat split; try (vm_compute; reflexivity).
  eexists. vm_compute. reflexivity.
Qed.

(** ** Decoding the cleartexts *)

(** C5 (the code at failing inputs).  Batch 1 holds two submissions.
    - The buffer of two 5-byte slots, (7, true) then (9, false), makes the
      callback revert in [abi.decode].
    - A buffer of 41 bytes, zero but for the last, is accepted: both deltas
      are read from the first 32-byte word, the flags from the overlapping
      words at offsets 4 and 9.
    - The same buffer followed by twenty more bytes is accepted with the same
      result: the length is not compared with any expected total. *)
Theorem callback_decode_ignores_slots_and_length :
  sample_callback 5
    [Byte.x00; Byte.x00; Byte.x00; Byte.x07; Byte.x01;
     Byte.x00; Byte.x00; Byte.x00; Byte.x09; Byte.x00] sample_proof two_pending
    = Revert AbiRevert
  /\ completed (sample_callback 5 (zeros 40 ++ [Byte.x01]) sample_proof two_pending)
     = Some (DecryptionCompleted 5 1 [0; 0] [false; true])
  /\ completed (sample_callback 5 (zeros 40 ++ [Byte.x01] ++ repeat Byte.xff 20)
                  sample_proof two_pending)
     = Some (DecryptionCompleted 5 1 [0; 0] [false; true]).
Proof. repeat split; vm_compute; reflexivity. Qed.

(** ** Pausing, ownership and the provider role *)

(** Both directions report [Paused]: no two different errors exist for them. *)
Lemma pause_unpause_errors_not_distinct :
  ~ (exists e1 e2 : Error,
        e1 <> e2
        /\ pause (mkEnv 1 1000) (commit (pause (mkEnv 1 1000)) fresh) = Revert e1
        /\ unpause (mkEnv 1 1000) fresh = Revert e2).
Proof.
  intros (e1 & e2 & Hne & H1 & H2).
  vm_compute in H1. vm_compute in H2. congruence.
Qed.

Lemma pause_unpause_report_Paused_witness :
  msg_sender (mkEnv 1 1000) = owner fresh
  /\ paused fresh = false
  /\ unpause (mkEnv 1 1000) fresh = Revert Paused.
Proof.
  split; [reflexivity|]. split; [reflexivity|].
  apply (pause_unpause_report_Paused (mkEnv 1 1000) fresh); reflexivity.
Defined.

(** After a transfer to actor 2, who is no provider, and also after the owner
    removed its own provider status, the owner fails the provider check. *)
Lemma owner_not_provider_after_transfer_or_removal :
  reachable sample_this sample_keccak sample_checkSignatures
    (sample_run [(mkEnv 1 1000, TransferOwnership 2)] fresh)
  /\ getB (isProvider (sample_run [(mkEnv 1 1000, TransferOwnership 2)] fresh))
          (owner (sample_run [(mkEnv 1 1000, TransferOwnership 2)] fresh)) = false
  /\ reachable sample_this sample_keccak sample_checkSignatures
       (sample_run [(mkEnv 1 1000, RemoveProvider 1)] fresh)
  /\ getB (isProvider (sample_run [(mkEnv 1 1000, RemoveProvider 1)] fresh))
          (owner (sample_run [(mkEnv 1 1000, RemoveProvider 1)] fresh)) = false.
Proof.
  split; [|split; [|split]].
  - exists (mkEnv 1 1000), [(mkEnv 1 1000, TransferOwnership 2)]. reflexivity.
  - vm_compute. reflexivity.
  - exists (mkEnv 1 1000), [(mkEnv 1 1000, RemoveProvider 1)]. reflexivity.
  - vm_compute. reflexivity.
Qed.

Lemma owner_is_provider_unless_transferred_or_removed_witness :
  getB (isProvider fresh) (owner fresh) = true
  /\ getB (isProvider (sample_run [(mkEnv 1 1000, AddProvider 2)] fresh))
          (owner (sample_run [(mkEnv 1 1000, AddProvider 2)] fresh)) = true
  /\ getB (isProvider fresh) 2 = false
  /\ getB (isProvider (sample_run [(mkEnv 1 1000, TransferOwnership 2)] fresh))
          (owner (sample_run [(mkEnv 1 1000, TransferOwnership 2)] fresh)) = false
  /\ getB (isProvider (sample_run [(mkEnv 1 1000, RemoveProvider (owner fresh))] fresh))
          (owner (sample_run [(mkEnv 1 1000, RemoveProvider (owner fresh))] fresh)) = false.
Proof.
  destruct (owner_is_provider_unless_transferred_or_removed
              sample_this sample_keccak sample_checkSignatures)
    as (_ & Hkeep & _ & Htransfer & Hremove).
  split; [reflexivity|]. split; [|split; [reflexivity|split]].
  - apply (Hkeep (mkEnv 1 1000) (AddProvider 2) fresh).
    + reflexivity.
    + intros n Hn. discriminate Hn.
    + discriminate.
  - apply (Htransfer (mkEnv 1 1000) 2 fresh); reflexivity.
  - apply (Hremove (mkEnv 1 1000) fresh). reflexivity.
Defined.

Lemma transferOwnership_no_guard_on_new_owner_witness :
  msg_sender (mkEnv 1 1000) = owner fresh
  /\ owner (commit (transferOwnership (mkEnv 1 1000) 0) fresh) = 0
  /\ transferOwnership (mkEnv 1 2000) 1 (commit (transferOwnership (mkEnv 1 1000) 0) fresh)
     = Revert NotOwner.
Proof.
  split; [reflexivity|].
  destruct (transferOwnership_no_guard_on_new_owner (mkEnv 1 1000) 0 fresh eq_refl)
    as (_ & Hnew & Hlost).
  split; [exact Hnew|].
  apply (Hlost eq_refl (mkEnv 1 2000) 1). simpl. discriminate.
Defined.

(** ** Submissions *)

(** Actor 9 is no provider: its submission is refused and nothing changes. *)
Lemma submit_rejected_consumes_no_cooldown_witness :
  getB (isProvider one_submission) (msg_sender (mkEnv 9 5000)) = false
  /\ commit (submitReputationUpdate (mkEnv 9 5000) 1 21 22) one_submission = one_submission
  /\ (forall s', submitReputationUpdate (mkEnv 1 5000) 1 21 22 one_submission = Ok (tt, s') ->
        lastSubmissionTime s' = <[1 := 5000]> (lastSubmissionTime one_submission)).
Proof.
  split; [vm_compute; reflexivity|].
  pose proof (submit_rejected_consumes_no_cooldown (mkEnv 9 5000) 1 21 22 one_submission)
    as [Hfail _].
  pose proof (submit_rejected_consumes_no_cooldown (mkEnv 1 5000) 1 21 22 one_submission)
    as [_ Hok].
  split.
  - apply Hfail. left. vm_compute. reflexivity.
  - intros s' Hrun. apply (Hok s' Hrun).
Defined.

(** Two batches are open at once; the earlier one still takes a submission. *)
Lemma submit_accepted_by_every_open_batch_witness :
  currentBatchId two_open_batches = 2
  /\ getB (isBatchOpen two_open_batches) 1 = true
  /\ exists s',
       submitReputationUpdate (mkEnv 1 1060) 1 11 12 two_open_batches = Ok (tt, s')
       /\ getZ (submissionsCount s') 1 = 1
       /\ getZ (submissionsCount s') 2 = 1.
Proof.
  split; [vm_compute; reflexivity|]. split; [vm_compute; reflexivity|].
  destruct (submit_accepted_by_every_open_batch (mkEnv 1 1060) 1 11 12 two_open_batches)
    as [(s' & Hrun & _ & _ & Hcount & _) _].
  - vm_compute. reflexivity.
  - vm_compute. reflexivity.
  - vm_compute. discriminate.
  - vm_compute. discriminate.
  - vm_compute. reflexivity.
  - vm_compute. reflexivity.
  - split; vm_compute; discriminate.
  - vm_compute. reflexivity.
  - exists s'. split; [exact Hrun|]. split.
    + rewrite Hcount. vm_compute. reflexivity.
    + assert (Heq : s' = commit (submitReputationUpdate (mkEnv 1 1060) 1 11 12) two_open_batches)
        by (unfold commit; rewrite Hrun; reflexivity).
      rewrite Heq. vm_compute. reflexivity.
Defined.

(** ** The decryption callback *)

Lemma callback_succeeds_at_most_once_witness :
  sample_callback 5 (zeros 36) sample_proof one_pending = Ok (tt, one_processed)
  /\ sample_callback 5 (zeros 36) sample_proof
       (sample_run [(mkEnv 1 2000, OpenBatch); (mkEnv 1 2000, RequestBatchDecryption 1 6)]
          one_processed)
     = Revert ReplayDetected.
Proof.
  assert (Hok : sample_callback 5 (zeros 36) sample_proof one_pending = Ok (tt, one_processed))
    by (vm_compute; reflexivity).
  split; [exact Hok|].
  refine (proj1 (proj2 (callback_succeeds_at_most_once
            sample_this sample_keccak sample_checkSignatures
            5 (zeros 36) sample_proof one_pending one_processed Hok
            [(mkEnv 1 2000, OpenBatch); (mkEnv 1 2000, RequestBatchDecryption 1 6)] _
            (zeros 36) sample_proof))).
  repeat constructor.
Defined.

(** A second submission reaches batch 1 while request 5 is pending. *)
Lemma submission_after_request_forces_StateMismatch_witness :
  sample_request (mkEnv 1 1060) 1 5 one_submission = Ok (tt, one_pending)
  /\ (exists s', submitReputationUpdate (mkEnv 1 1060) 1 13 14 one_pending = Ok (tt, s'))
  /\ sample_callback 5 (zeros 36) sample_proof
       (sample_run [(mkEnv 1 1060, SubmitReputationUpdate 1 13 14)] one_pending)
     = Revert StateMismatch.
Proof.
  assert (Hreq : sample_request (mkEnv 1 1060) 1 5 one_submission = Ok (tt, one_pending))
    by (vm_compute; reflexivity).
  assert (Hsub : submitReputationUpdate (mkEnv 1 1060) 1 13 14 one_pending
                 = Ok (tt, commit (submitReputationUpdate (mkEnv 1 1060) 1 13 14) one_pending))
    by (vm_compute; reflexivity).
  split; [exact Hreq|]. split; [eexists; exact Hsub|].
  pose proof (submission_after_request_forces_StateMismatch
            sample_this sample_keccak sample_checkSignatures
            (mkEnv 1 1060) 1 5 one_submission one_pending) as H.
  assert (Hreach : reachable sample_this sample_keccak sample_checkSignatures one_submission).
  { exists (mkEnv 1 1000),
      [(mkEnv 1 1000, OpenBatch); (mkEnv 1 1000, SubmitReputationUpdate 1 11 12)].
    reflexivity. }
  specialize (H Hreach Hreq [] (mkEnv 1 1060) 13 14 _ [] Hsub).
  specialize (H ltac:(repeat constructor)).
  specialize (H ltac:(vm_compute; discriminate)).
  specialize (H ltac:(intros Hcollide; vm_compute in Hcollide; discriminate Hcollide)).
  exact (proj1 (H (zeros 36) sample_proof)).
Defined.

(** Request id 99 was never issued: the callback reverts, but not with
    [ReplayDetected]. *)
Lemma callback_for_unissued_request_not_ReplayDetected :
  decryptionContexts one_pending !! 99 = None
  /\ sample_callback 99 (zeros 36) sample_proof one_pending = Revert StateMismatch
  /\ sample_callback 99 (zeros 36) sample_proof one_pending <> Revert ReplayDetected.
Proof.
  split; [vm_compute; reflexivity|].
  split; [vm_compute; reflexivity|].
  vm_compute. discriminate.
Qed.

Lemma callback_for_unissued_request_reverts_StateMismatch_witness :
  sample_keccak [] sample_this <> 0
  /\ sample_callback 99 (zeros 36) sample_proof
       (sample_run [ (mkEnv 1 1000, OpenBatch);
                     (mkEnv 1 1000, SubmitReputationUpdate 1 11 12);
                     (mkEnv 1 1060, RequestBatchDecryption 1 5) ] fresh)
     = Revert StateMismatch.
Proof.
  assert (Hhash : sample_keccak [] sample_this <> 0) by (vm_compute; discriminate).
  split; [exact Hhash|].
  unfold sample_callback, sample_run, fresh.
  refine (proj1 (proj2 (callback_for_unissued_request_reverts_StateMismatch
            sample_this sample_keccak sample_checkSignatures (mkEnv 1 1000)
            [ (mkEnv 1 1000, OpenBatch);
              (mkEnv 1 1000, SubmitReputationUpdate 1 11 12);
              (mkEnv 1 1060, RequestBatchDecryption 1 5) ]
            99 _ Hhash (zeros 36) sample_proof))).
  repeat constructor.
Defined.

(** ** Further properties on the sample deployment *)

Lemma one_submission_reachable :
  reachable sample_this sample_keccak sample_checkSignatures one_submission.
Proof.
  exists (mkEnv 1 1000),
    [(mkEnv 1 1000, OpenBatch); (mkEnv 1 1000, SubmitReputationUpdate 1 11 12)].
  reflexivity.
Qed.

Lemma submission_counters_agree_witness :
  getZ (submissionsInBatch one_submission) 1 = getZ (submissionsCount one_submission) 1
  /\ 0 <= getZ (submissionsCount one_submission) 1.
Proof.
  exact (submission_counters_agree sample_this sample_keccak sample_checkSignatures
           one_submission 1 one_submission_reachable).
Defined.

Lemma unallocated_batch_closed_and_empty_witness :
  currentBatchId one_submission < 2
  /\ getB (isBatchOpen one_submission) 2 = false
  /\ getZ (submissionsCount one_submission) 2 = 0.
Proof.
  assert (Hb : 2 <= 0 \/ currentBatchId one_submission < 2)
    by (right; vm_compute; reflexivity).
  destruct (unallocated_batch_closed_and_empty
              sample_this sample_keccak sample_checkSignatures
              one_submission 2 one_submission_reachable Hb) as (Hopen & Hcount & _).
  split; [vm_compute; reflexivity|]. split; assumption.
Defined.

Lemma submissions_stored_gapless_witness :
  is_Some (encryptedReputationUpdates one_submission !! (1, 0))
  /\ ~ is_Some (encryptedIsMalicious one_submission !! (1, 1)).
Proof.
  destruct (submissions_stored_gapless sample_this sample_keccak sample_checkSignatures
              one_submission 1 0 one_submission_reachable) as [Hd _].
  destruct (submissions_stored_gapless sample_this sample_keccak sample_checkSignatures
              one_submission 1 1 one_submission_reachable) as [_ Hf].
  split.
  - apply Hd. vm_compute. split; discriminate || reflexivity.
  - intros Hsome. apply Hf in Hsome. vm_compute in Hsome. destruct Hsome as [_ Habs].
    discriminate Habs.
Defined.

Lemma cooldown_never_zero_witness : cooldownSeconds one_submission <> 0.
Proof.
  exact (cooldown_never_zero sample_this sample_keccak sample_checkSignatures
           one_submission one_submission_reachable).
Defined.

Lemma stored_submission_never_changes_witness :
  encryptedReputationUpdates one_submission !! (1, 0) = Some 11
  /\ encryptedReputationUpdates
       (sample_run [ (mkEnv 1 1060, SubmitReputationUpdate 1 13 14);
                     (mkEnv 1 1120, RequestBatchDecryption 1 5) ] one_submission)
       !! (1, 0) = Some 11.
Proof.
  assert (Hv : encryptedReputationUpdates one_submission !! (1, 0) = Some 11)
    by (vm_compute; reflexivity).
  split; [exact Hv|].
  unfold sample_run.
  exact (proj1 (stored_submission_never_changes
                  sample_this sample_keccak sample_checkSignatures one_submission
                  [ (mkEnv 1 1060, SubmitReputationUpdate 1 13 14);
                    (mkEnv 1 1120, RequestBatchDecryption 1 5) ]
                  1 0 11 one_submission_reachable) Hv).
Defined.

Lemma earlier_batch_flag_frozen_witness :
  1 < currentBatchId two_open_batches
  /\ getB (isBatchOpen (sample_run [ (mkEnv 1 2000, CloseBatch) ] two_open_batches)) 1
     = getB (isBatchOpen two_open_batches) 1.
Proof.
  assert (Hb : 1 < currentBatchId two_open_batches) by (vm_compute; reflexivity).
  split; [exact Hb|].
  unfold sample_run.
  exact (earlier_batch_flag_frozen sample_this sample_keccak sample_checkSignatures
           two_open_batches 1 [ (mkEnv 1 2000, CloseBatch) ] Hb).
Defined.

Lemma closed_batch_never_reopens_witness :
  getB (isBatchOpen one_closed) 1 = false
  /\ getB (isBatchOpen (sample_run [ (mkEnv 1 2000, OpenBatch) ] one_closed)) 1 = false.
Proof.
  assert (Hclosed : getB (isBatchOpen one_closed) 1 = false) by (vm_compute; reflexivity).
  assert (Hb : 1 <= currentBatchId one_closed) by (vm_compute; discriminate).
  split; [exact Hclosed|].
  unfold sample_run.
  exact (proj1 (closed_batch_never_reopens sample_this sample_keccak sample_checkSignatures
                  one_closed 1 [ (mkEnv 1 2000, OpenBatch) ] Hb Hclosed)).
Defined.

Lemma owner_only_calls_reject_others_witness :
  msg_sender (mkEnv 9 1000) <> owner fresh
  /\ exec sample_this sample_keccak sample_checkSignatures (mkEnv 9 1000) OpenBatch fresh
     = Revert NotOwner.
Proof.
  assert (Hne : msg_sender (mkEnv 9 1000) <> owner fresh) by (vm_compute; discriminate).
  split; [exact Hne|].
  exact (owner_only_calls_reject_others sample_this sample_keccak sample_checkSignatures
           (mkEnv 9 1000) OpenBatch fresh eq_refl Hne).
Defined.

Lemma paused_blocks_gated_calls_witness :
  paused paused_fresh = true
  /\ exec sample_this sample_keccak sample_checkSignatures
       (mkEnv 1 2000) OpenBatch paused_fresh = Revert Paused
  /\ exec sample_this sample_keccak sample_checkSignatures
       (mkEnv 9 2000) (SubmitReputationUpdate 1 11 12) paused_fresh = Revert NotProvider.
Proof.
  assert (Hp : paused paused_fresh = true) by (vm_compute; reflexivity).
  split; [exact Hp|].
  pose proof (paused_blocks_gated_calls sample_this sample_keccak sample_checkSignatures
                (mkEnv 1 2000) OpenBatch paused_fresh Hp eq_refl) as Howner.
  pose proof (paused_blocks_gated_calls sample_this sample_keccak sample_checkSignatures
                (mkEnv 9 2000) (SubmitReputationUpdate 1 11 12) paused_fresh Hp eq_refl)
    as Hstranger.
  split.
  - rewrite Howner. vm_compute. reflexivity.
  - rewrite Hstranger. vm_compute. reflexivity.
Defined.

Lemma owner_changes_only_by_transfer_witness :
  owner (transact sample_this sample_keccak sample_checkSignatures
           (mkEnv 1 1000, TransferOwnership 2) fresh) <> owner fresh
  /\ exists newOwner,
       TransferOwnership 2 = TransferOwnership newOwner
       /\ 1 = owner fresh
       /\ owner (transact sample_this sample_keccak sample_checkSignatures
                   (mkEnv 1 1000, TransferOwnership 2) fresh) = newOwner.
Proof.
  assert (Hchg : owner (transact sample_this sample_keccak sample_checkSignatures
                          (mkEnv 1 1000, TransferOwnership 2) fresh) <> owner fresh)
    by (vm_compute; discriminate).
  split; [exact Hchg|].
  exact (owner_changes_only_by_transfer sample_this sample_keccak sample_checkSignatures
           (mkEnv 1 1000, TransferOwnership 2) fresh Hchg).
Defined.

Lemma providers_change_only_by_owner_witness :
  getB (isProvider (transact sample_this sample_keccak sample_checkSignatures
                      (mkEnv 1 1000, AddProvider 2) fresh)) 2
    <> getB (isProvider fresh) 2
  /\ 1 = owner fresh.
Proof.
  assert (Hchg : getB (isProvider (transact sample_this sample_keccak sample_checkSignatures
                                     (mkEnv 1 1000, AddProvider 2) fresh)) 2
                 <> getB (isProvider fresh) 2)
    by (vm_compute; discriminate).
  split; [exact Hchg|].
  exact (proj1 (providers_change_only_by_owner
                  sample_this sample_keccak sample_checkSignatures
                  (mkEnv 1 1000, AddProvider 2) fresh 2 Hchg)).
Defined.

Lemma addProvider_idempotent_witness :
  msg_sender (mkEnv 1 1000) = owner fresh
  /\ getB (isProvider (commit (addProvider (mkEnv 1 1000) 2) fresh)) 2 = true
  /\ addProvider (mkEnv 1 1000) 2 (commit (addProvider (mkEnv 1 1000) 2) fresh)
     = Ok (tt, commit (addProvider (mkEnv 1 1000) 2) fresh).
Proof.
  split; [reflexivity|].
  destruct (addProvider_idempotent (mkEnv 1 1000) 2 fresh eq_refl) as (Hp & _ & Hagain).
  split; assumption.
Defined.

Lemma removeProvider_idempotent_witness :
  msg_sender (mkEnv 1 1000) = owner fresh
  /\ getB (isProvider (commit (removeProvider (mkEnv 1 1000) 1) fresh)) 1 = false
  /\ submitReputationUpdate (mkEnv 1 2000) 1 11 12
       (commit (removeProvider (mkEnv 1 1000) 1) fresh) = Revert NotProvider.
Proof.
  split; [reflexivity|].
  destruct (removeProvider_idempotent (mkEnv 1 1000) 1 fresh eq_refl) as (Hp & _ & Hsub).
  split; [exact Hp|]. apply (Hsub (mkEnv 1 2000) 1 11 12). reflexivity.
Defined.

Lemma pause_then_unpause_restores_witness :
  msg_sender (mkEnv 1 1000) = owner fresh
  /\ paused fresh = false
  /\ exists s1,
       pause (mkEnv 1 1000) fresh = Ok (tt, s1)
       /\ paused s1 = true
       /\ unpause (mkEnv 1 1000) s1
          = Ok (tt, set_events (events fresh ++ [ContractPaused 1; ContractUnpaused 1]) fresh).
Proof.
  split; [reflexivity|]. split; [reflexivity|].
  exact (pause_then_unpause_restores (mkEnv 1 1000) fresh eq_refl eq_refl).
Defined.

Lemma request_accepted_iff_witness :
  (exists s', sample_request (mkEnv 1 1060) 1 5 one_closed = Ok (tt, s'))
  /\ getB (isBatchOpen one_closed) 1 = false
  /\ ~ (exists s', sample_request (mkEnv 1 1060) 2 5 one_closed = Ok (tt, s')).
Proof.
  unfold sample_request.
  pose proof (request_accepted_iff sample_this sample_keccak (mkEnv 1 1060) 1 5 one_closed)
    as Hyes.
  pose proof (request_accepted_iff sample_this sample_keccak (mkEnv 1 1060) 2 5 one_closed)
    as Hno.
  split; [|split].
  - apply Hyes. vm_compute. repeat split; discriminate.
  - vm_compute. reflexivity.
  - intros Hok. apply Hno in Hok. destruct Hok as (_ & _ & _ & _ & Hne & _).
    apply Hne. vm_compute. reflexivity.
Defined.

Lemma resubmission_within_cooldown_rejected_witness :
  submitReputationUpdate (mkEnv 1 1000) 1 11 12 one_open_batch = Ok (tt, one_submission)
  /\ submitReputationUpdate (mkEnv 1 1030) 2 13 14
       (sample_run [ (mkEnv 1 1010, OpenBatch); (mkEnv 1 1020, AddProvider 2);
                     (mkEnv 2 1020, SubmitReputationUpdate 1 21 22) ] one_submission)
     = Revert CooldownActive.
Proof.
  assert (Hrun : submitReputationUpdate (mkEnv 1 1000) 1 11 12 one_open_batch
                 = Ok (tt, one_submission)) by (vm_compute; reflexivity).
  split; [exact Hrun|].
  unfold sample_run.
  rewrite (proj2 (resubmission_within_cooldown_rejected
                    sample_this sample_keccak sample_checkSignatures
                    (mkEnv 1 1000) 1 11 12 one_open_batch one_submission
                    [ (mkEnv 1 1010, OpenBatch); (mkEnv 1 1020, AddProvider 2);
                      (mkEnv 2 1020, SubmitReputationUpdate 1 21 22) ]
                    (mkEnv 1 1030) 2 13 14 Hrun
                    ltac:(repeat constructor) eq_refl ltac:(vm_compute; reflexivity))).
  vm_compute. reflexivity.
Defined.

Lemma context_binding_is_permanent_witness :
  decryptionContexts one_pending !! 5
    = Some (getCtx (decryptionContexts one_pending) 5)
  /\ exists p,
       decryptionContexts
         (sample_run [ (mkEnv 1 2000, MyCallback 5 (zeros 36) sample_proof);
                       (mkEnv 1 2000, RequestBatchDecryption 1 6) ] one_pending) !! 5
       = Some (mkContext (batchId (getCtx (decryptionContexts one_pending) 5))
                         (stateHash (getCtx (decryptionContexts one_pending) 5)) p)
       /\ (processed (getCtx (decryptionContexts one_pending) 5) = true -> p = true).
Proof.
  assert (Hc : decryptionContexts one_pending !! 5
               = Some (getCtx (decryptionContexts one_pending) 5))
    by (vm_compute; reflexivity).
  split; [exact Hc|].
  unfold sample_run.
  apply (context_binding_is_permanent sample_this sample_keccak sample_checkSignatures
           one_pending 5 (getCtx (decryptionContexts one_pending) 5)
           [ (mkEnv 1 2000, MyCallback 5 (zeros 36) sample_proof);
             (mkEnv 1 2000, RequestBatchDecryption 1 6) ] Hc).
  repeat constructor.
Defined.

Lemma current_cts_layout_witness :
  0 <= 1 < getZ (submissionsCount two_pending) 1
  /\ current_cts two_pending 1 = [11; 13; 12; 14]
  /\ current_cts two_pending 1 !! Z.to_nat 1
     = Some (getZ (encryptedReputationUpdates two_pending) (1, 1)).
Proof.
  assert (Hj : 0 <= 1 < getZ (submissionsCount two_pending) 1)
    by (vm_compute; split; [discriminate|reflexivity]).
  split; [exact Hj|]. split; [vm_compute; reflexivity|].
  exact (proj1 (current_cts_layout two_pending 1 1 Hj)).
Defined.

Lemma one_pending_answered :
  myCallback sample_this sample_keccak sample_checkSignatures
    5 (zeros 36) sample_proof one_pending = Ok (tt, one_processed).
Proof. vm_compute. reflexivity. Qed.

Lemma callback_publishes_one_value_per_submission_witness :
  exists deltas flags,
    last (events one_processed) = Some (DecryptionCompleted 5 1 deltas flags)
    /\ length deltas = 1%nat /\ length flags = 1%nat.
Proof.
  pose proof (callback_publishes_one_value_per_submission
                sample_this sample_keccak sample_checkSignatures
                5 (zeros 36) sample_proof one_pending one_processed one_pending_answered)
    as H.
  vm_compute in H. exact H.
Defined.

Lemma callback_rejects_short_buffer_witness :
  1 <= getZ (submissionsCount one_pending)
         (batchId (getCtx (decryptionContexts one_pending) 5))
  /\ 5 * 1 + 31 <= Z.of_nat (length (zeros 36)).
Proof.
  assert (Hn : 1 <= getZ (submissionsCount one_pending)
                      (batchId (getCtx (decryptionContexts one_pending) 5)))
    by (vm_compute; discriminate).
  split; [exact Hn|].
  pose proof (callback_rejects_short_buffer
                sample_this sample_keccak sample_checkSignatures
                5 (zeros 36) sample_proof one_pending one_processed one_pending_answered Hn)
    as H.
  vm_compute in H. vm_compute. exact H.
Defined.

Lemma callback_success_forces_zero_deltas_witness :
  1 <= getZ (submissionsCount one_pending)
         (batchId (getCtx (decryptionContexts one_pending) 5))
  /\ exists flags,
       last (events one_processed) = Some (DecryptionCompleted 5 1 [0] flags).
Proof.
  assert (Hn : 1 <= getZ (submissionsCount one_pending)
                      (batchId (getCtx (decryptionContexts one_pending) 5)))
    by (vm_compute; discriminate).
  split; [exact Hn|].
  pose proof (callback_success_forces_zero_deltas
                sample_this sample_keccak sample_checkSignatures
                5 (zeros 36) sample_proof one_pending one_processed one_pending_answered Hn)
    as H.
  vm_compute in H. exact H.
Defined.

Lemma callback_after_quiet_interval_witness :
  sample_request (mkEnv 1 1060) 1 5 one_submission = Ok (tt, one_pending)
  /\ sample_checkSignatures 5 (zeros 36) [] = false
  /\ sample_callback 5 (zeros 36) []
       (sample_run [ (mkEnv 1 2000, OpenBatch);
                     (mkEnv 1 2000, SubmitReputationUpdate 2 31 32) ] one_pending)
     = Revert InvalidProof.
Proof.
  assert (Hreq : sample_request (mkEnv 1 1060) 1 5 one_submission = Ok (tt, one_pending))
    by (vm_compute; reflexivity).
  split; [exact Hreq|]. split; [reflexivity|].
  unfold sample_callback, sample_run.
  apply (callback_after_quiet_interval sample_this sample_keccak sample_checkSignatures
           (mkEnv 1 1060) 1 5 one_submission one_pending
           [ (mkEnv 1 2000, OpenBatch); (mkEnv 1 2000, SubmitReputationUpdate 2 31 32) ]
           (zeros 36) [] Hreq).
  - repeat constructor.
  - reflexivity.
Defined.

Lemma callback_touches_only_its_context_witness :
  submissionsCount one_processed = submissionsCount one_pending
  /\ processed (getCtx (decryptionContexts one_processed) 5) = true.
Proof.
  pose proof (callback_touches_only_its_context
                sample_this sample_keccak sample_checkSignatures
                5 (zeros 36) sample_proof one_pending one_processed one_pending_answered)
    as (_ & _ & _ & _ & _ & _ & _ & _ & _ & Hcount & _ & _ & _ & Hctx).
  split; [exact Hcount|]. rewrite Hctx. reflexivity.
Defined.
